(** * html-qrcode-generator: the generator and scanner controllers

    A shallow embedding of the two browser controllers of the repository,
    [QRCodeGenerator] (text to QR symbol) and [QRScanner] (image to text),
    with the properties of their specification stated over it.

    The DOM elements a controller owns become fields of a record, a method
    becomes a function from state to state, the external encoder
    ([qrcode-generator]) and decoder ([jsQR]) are section variables, and a
    call that may throw returns a [Completion]. *)

From Stdlib Require Import ZArith NArith List String Ascii Bool Lia.
From Stdlib Require Import DecimalString.
From Stdlib Require Import Floats.PrimFloat.
Import ListNotations.

Set Implicit Arguments.

Open Scope string_scope.
Open Scope list_scope.

(* ------------------------------------------------------------------ *)
(** ** JavaScript values *)

Module JS.

(** A JavaScript string is a sequence of UTF-16 code units. *)
Definition jsstring := list N.

(** A source literal (ASCII only in this repository). *)
Definition lit (s : string) : jsstring :=
  map N_of_ascii (list_ascii_of_string s).

(** [s.length], also used for the [length] of a [Uint8Array]. *)
Definition length {A : Type} (s : list A) : Z := Z.of_nat (List.length s).

Local Open Scope N_scope.

(** ECMAScript WhiteSpace and LineTerminator code points: the characters
    [String.prototype.trim] strips. *)
Definition isWhiteSpace (u : N) : bool :=
  ((0x09 <=? u) && (u <=? 0x0D)) || (u =? 0x20) || (u =? 0xA0)
  || (u =? 0x1680) || ((0x2000 <=? u) && (u <=? 0x200A))
  || (u =? 0x2028) || (u =? 0x2029) || (u =? 0x202F) || (u =? 0x205F)
  || (u =? 0x3000) || (u =? 0xFEFF).

Fixpoint trimStart (s : jsstring) : jsstring :=
  match s with
  | [] => []
  | u :: rest => if isWhiteSpace u then trimStart rest else s
  end.

Definition trimEnd (s : jsstring) : jsstring := rev (trimStart (rev s)).

Definition trim (s : jsstring) : jsstring := trimEnd (trimStart s).

(** Truthiness of a string: [!text] holds exactly for the empty string. *)
Definition truthy (s : jsstring) : bool :=
  match s with [] => false | _ :: _ => true end.

(** [n.toString()] and template interpolation for an integral number. *)
Definition int_toString (z : Z) : jsstring :=
  lit (NilEmpty.string_of_int (Z.to_int z)).

Definition isHighSurrogate (u : N) : bool := (0xD800 <=? u) && (u <=? 0xDBFF).
Definition isLowSurrogate (u : N) : bool := (0xDC00 <=? u) && (u <=? 0xDFFF).

(** UTF-8 bytes of one code point. *)
Definition utf8_of_codepoint (c : N) : list N :=
  if c <? 0x80 then [c]
  else if c <? 0x800 then [0xC0 + c / 64; 0x80 + c mod 64]
  else if c <? 0x10000 then
    [0xE0 + c / 4096; 0x80 + (c / 64) mod 64; 0x80 + c mod 64]
  else
    [0xF0 + c / 262144; 0x80 + (c / 4096) mod 64;
     0x80 + (c / 64) mod 64; 0x80 + c mod 64].

(** [new TextEncoder().encode(s)]: UTF-8, a lone surrogate becoming
    U+FFFD. *)
Fixpoint TextEncoder_encode (s : jsstring) : list N :=
  match s with
  | [] => []
  | u :: rest =>
      if isHighSurrogate u then
        match rest with
        | lo :: rest' =>
            if isLowSurrogate lo then
              utf8_of_codepoint
                (0x10000 + (u - 0xD800) * 1024 + (lo - 0xDC00))
                ++ TextEncoder_encode rest'
            else utf8_of_codepoint 0xFFFD ++ TextEncoder_encode rest
        | [] => utf8_of_codepoint 0xFFFD
        end
      else if isLowSurrogate u then
        utf8_of_codepoint 0xFFFD ++ TextEncoder_encode rest
      else utf8_of_codepoint u ++ TextEncoder_encode rest
  end.

Local Close Scope N_scope.

(** An [Error] object, as far as the controllers look at it. *)
Record Error := { message : jsstring }.

(** The outcome of a call that may throw. *)
Inductive Completion (A : Type) :=
| Return (a : A)
| Throw (e : Error).
Arguments Return {A} a.
Arguments Throw {A} e.

(** A counting [for (let i = 0; i < n; i++) body(i)] over a state. *)
Fixpoint for_from {S : Type} (i count : nat) (body : nat -> S -> S) (s : S) : S :=
  match count with
  | O => s
  | S k => for_from (Datatypes.S i) k body (body i s)
  end.

Definition for_upto {S : Type} (n : nat) (body : nat -> S -> S) (s : S) : S :=
  for_from 0 n body s.

(** The number a loop counter holds after [n] increments from [0]. *)
Fixpoint number_of_nat (n : nat) : float :=
  match n with
  | O => 0%float
  | S k => (number_of_nat k + 1)%float
  end.

(** [el.classList]: an ordered set of tokens. *)
Definition classList := list string.

Definition classList_contains (t : string) (c : classList) : bool :=
  existsb (String.eqb t) c.

Definition classList_add (t : string) (c : classList) : classList :=
  if classList_contains t c then c else c ++ [t].

Definition classList_remove (t : string) (c : classList) : classList :=
  filter (fun x => negb (String.eqb t x)) c.

(** [s.substring(start, end)]: both indices are clamped to the string and
    swapped when out of order. *)
Definition substring (s : jsstring) (start finish : Z) : jsstring :=
  let len := length s in
  let a := Z.min (Z.max start 0) len in
  let b := Z.min (Z.max finish 0) len in
  firstn (Z.to_nat (Z.max a b - Z.min a b)) (skipn (Z.to_nat (Z.min a b)) s).

(** [s.startsWith(pattern)] and [s.includes(pattern)]; the latter is also
    [s.indexOf(pattern) !== -1]. *)
Fixpoint startsWith (pattern s : jsstring) : bool :=
  match pattern, s with
  | [], _ => true
  | _ :: _, [] => false
  | p :: pattern', u :: s' => (p =? u)%N && startsWith pattern' s'
  end.

Fixpoint includes (pattern s : jsstring) : bool :=
  startsWith pattern s
  || match s with
     | [] => false
     | _ :: s' => includes pattern s'
     end.

(** Newline normalisation: CR LF and a lone CR become LF. *)
Fixpoint normalizeNewlines (s : jsstring) : jsstring :=
  match s with
  | [] => []
  | u :: rest =>
      if (u =? 0x0D)%N then
        0x0A%N ::
          match rest with
          | v :: rest' =>
              if (v =? 0x0A)%N then normalizeNewlines rest'
              else normalizeNewlines rest
          | [] => []
          end
      else u :: normalizeNewlines rest
    end.

(** What the [value] of a [textarea] reads back after [assigned] was
    written to it: the text with its newlines normalised.  The literals
    this repository assigns hold no carriage return and read back as they
    are. *)
Definition textarea_value (assigned : jsstring) : jsstring :=
  normalizeNewlines assigned.

(** The number that holds an integer; exact below 2^53. *)
Fixpoint number_of_positive (p : positive) : float :=
  match p with
  | xH => 1%float
  | xO q => (2 * number_of_positive q)%float
  | xI q => (2 * number_of_positive q + 1)%float
  end.

Definition number_of_Z (z : Z) : float :=
  match z with
  | Z0 => 0%float
  | Zpos p => number_of_positive p
  | Zneg p => (- number_of_positive p)%float
  end.

End JS.

Import JS.

(* ------------------------------------------------------------------ *)
(** ** The generator controller ([QRCodeGenerator]) *)

Module Generator.

(** The four error-correction levels of a QR symbol. *)
Inductive ErrorCorrectionLevel := L | M | Q | H.

(** Share of the symbol that can be restored, in percent, as the comments
    of [getOptimalErrorCorrection] give it. *)
Definition recovery_percent (l : ErrorCorrectionLevel) : Z :=
  match l with L => 7 | M => 15 | Q => 25 | H => 30 end.

(** [getOptimalErrorCorrection(text)]: [text] is a string or a
    [Uint8Array]; only its [length] is read. *)
Definition getOptimalErrorCorrection {A : Type} (text : list A)
  : ErrorCorrectionLevel :=
  if (JS.length text >? 500)%Z then L
  else if (JS.length text >? 200)%Z then M
  else if (JS.length text >? 100)%Z then Q
  else H.

(** The encoder's result object, as far as the controller reads it:
    [qr.getModuleCount()] and [qr.isDark(row, col)]. *)
Record QRCode := {
  getModuleCount : nat;
  isDark : nat -> nat -> bool
}.

(** A DOM element: tag, attributes in the order they were set, inline
    style, text and element children. *)
#[warnings="-register-all"]
Inductive Element :=
| Elem (tagName : string)
       (attributes : list (string * jsstring))
       (style : list (string * jsstring))
       (textContent : jsstring)
       (children : list Element).

Definition attributes (e : Element) : list (string * jsstring) :=
  match e with Elem _ a _ _ _ => a end.

Definition children (e : Element) : list Element :=
  match e with Elem _ _ _ _ c => c end.

Definition appendChild (parent child : Element) : Element :=
  match parent with
  | Elem t a s txt c => Elem t a s txt (c ++ [child])
  end.

(** Several [appendChild] calls in a row. *)
Definition appendChildren (parent : Element) (more : list Element) : Element :=
  match parent with
  | Elem t a s txt c => Elem t a s txt (c ++ more)
  end.

(** [el.getAttribute(name)]. *)
Fixpoint lookup (name : string) (a : list (string * jsstring)) : option jsstring :=
  match a with
  | [] => None
  | (k, v) :: rest => if String.eqb name k then Some v else lookup name rest
  end.

Definition getAttribute (name : string) (e : Element) : option jsstring :=
  lookup name (attributes e).

(** The state of one controller: the DOM it owns, its configuration, the
    event loop's clock (milliseconds) with the due times of the pending
    [showError] timeouts, and a record of what reached the encoder and
    the console. *)
Record State := {
  textInput_value : jsstring;
  qrCodeContainer : list Element;
  errorContainer_textContent : jsstring;
  maxLength : Z;
  now : N;
  timeouts : list N;
  encoder_calls : list (ErrorCorrectionLevel * list N);
  console_error : list Error
}.

Definition set_textInput_value (v : jsstring) (g : State) : State :=
  {| textInput_value := v;
     qrCodeContainer := qrCodeContainer g;
     errorContainer_textContent := errorContainer_textContent g;
     maxLength := maxLength g; now := now g; timeouts := timeouts g;
     encoder_calls := encoder_calls g; console_error := console_error g |}.

Definition set_qrCodeContainer (c : list Element) (g : State) : State :=
  {| textInput_value := textInput_value g;
     qrCodeContainer := c;
     errorContainer_textContent := errorContainer_textContent g;
     maxLength := maxLength g; now := now g; timeouts := timeouts g;
     encoder_calls := encoder_calls g; console_error := console_error g |}.

Definition set_errorContainer_textContent (m : jsstring) (g : State) : State :=
  {| textInput_value := textInput_value g;
     qrCodeContainer := qrCodeContainer g;
     errorContainer_textContent := m;
     maxLength := maxLength g; now := now g; timeouts := timeouts g;
     encoder_calls := encoder_calls g; console_error := console_error g |}.

Definition set_now (t : N) (g : State) : State :=
  {| textInput_value := textInput_value g;
     qrCodeContainer := qrCodeContainer g;
     errorContainer_textContent := errorContainer_textContent g;
     maxLength := maxLength g; now := t; timeouts := timeouts g;
     encoder_calls := encoder_calls g; console_error := console_error g |}.

Definition set_timeouts (ts : list N) (g : State) : State :=
  {| textInput_value := textInput_value g;
     qrCodeContainer := qrCodeContainer g;
     errorContainer_textContent := errorContainer_textContent g;
     maxLength := maxLength g; now := now g; timeouts := ts;
     encoder_calls := encoder_calls g; console_error := console_error g |}.

Definition set_encoder_calls (cs : list (ErrorCorrectionLevel * list N))
  (g : State) : State :=
  {| textInput_value := textInput_value g;
     qrCodeContainer := qrCodeContainer g;
     errorContainer_textContent := errorContainer_textContent g;
     maxLength := maxLength g; now := now g; timeouts := timeouts g;
     encoder_calls := cs; console_error := console_error g |}.

Definition set_console_error (es : list Error) (g : State) : State :=
  {| textInput_value := textInput_value g;
     qrCodeContainer := qrCodeContainer g;
     errorContainer_textContent := errorContainer_textContent g;
     maxLength := maxLength g; now := now g; timeouts := timeouts g;
     encoder_calls := encoder_calls g; console_error := es |}.

(** The delay of the [setTimeout] in [showError]. *)
Definition errorDelay : N := 5000.

(** [setTimeout(() => { this.errorContainer.textContent = ""; }, delay)]:
    the only callback this controller schedules, so a pending timeout is
    its due time. *)
Definition setTimeout_clearError (delay : N) (g : State) : State :=
  set_timeouts (timeouts g ++ [(now g + delay)%N]) g.

(** [showError(message)]. *)
Definition showError (message : jsstring) (g : State) : State :=
  setTimeout_clearError errorDelay (set_errorContainer_textContent message g).

(** The event loop lets [d] milliseconds pass with no other event: the
    timeouts that are due by then run (each empties the error container)
    and leave the queue. *)
Definition advance (d : N) (g : State) : State :=
  let t := (now g + d)%N in
  let g := set_now t g in
  if existsb (fun due => (due <=? t)%N) (timeouts g) then
    set_timeouts (filter (fun due => negb (due <=? t)%N) (timeouts g))
      (set_errorContainer_textContent [] g)
  else g.

(** [clearAll()]. *)
Definition clearAll (g : State) : State :=
  set_errorContainer_textContent []
    (set_qrCodeContainer [] (set_textInput_value [] g)).

Section Rendering.

(** [Number.prototype.toString] on a number that need not be integral:
    the platform's shortest round-trip decimal. *)
Variable number_toString : float -> jsstring.

(** The encoder, [qrcode(0, level)] followed by
    [qr.addData(bytes, "Byte")] and [qr.make()]; [qrcode.stringToBytes]
    is patched to the identity, so the bytes reach it unchanged.  It
    returns the made symbol or throws. *)
Variable qrcode : ErrorCorrectionLevel -> list N -> Completion QRCode.

Definition size : float := 200%float.

Definition moduleSize (qr : QRCode) : float :=
  (size / number_of_nat (getModuleCount qr))%float.

(** The white background [rect] of the symbol. *)
Definition backgroundRect : Element :=
  Elem "rect"
    [("width", lit "100%"); ("height", lit "100%"); ("fill", lit "#ffffff")]
    [] [] [].

(** The black [rect] of the module at [(row, col)]. *)
Definition moduleRect (qr : QRCode) (row col : nat) : Element :=
  Elem "rect"
    [("x", number_toString (number_of_nat col * moduleSize qr)%float);
     ("y", number_toString (number_of_nat row * moduleSize qr)%float);
     ("width", number_toString (moduleSize qr));
     ("height", number_toString (moduleSize qr));
     ("fill", lit "#000000")]
    [] [] [].

(** [createQRCodeSVG(qr)]. *)
Definition createQRCodeSVG (qr : QRCode) : Element :=
  let moduleCount := getModuleCount qr in
  let svg :=
    Elem "svg"
      [("width", number_toString size);
       ("height", number_toString size);
       ("viewBox",
         lit "0 0 " ++ number_toString size ++ lit " " ++ number_toString size)]
      [("border", lit "1px solid #ddd"); ("background", lit "white")]
      [] [] in
  let svg := appendChild svg backgroundRect in
  for_upto moduleCount (fun row svg =>
    for_upto moduleCount (fun col svg =>
      if isDark qr row col then appendChild svg (moduleRect qr row col)
      else svg) svg) svg.

(** [showQRCodeInfo(qr, textLength, errorCorrection)]. *)
Definition level_toString (l : ErrorCorrectionLevel) : jsstring :=
  match l with L => lit "L" | M => lit "M" | Q => lit "Q" | H => lit "H" end.

Definition showQRCodeInfo (qr : QRCode) (textLength : Z)
  (errorCorrection : ErrorCorrectionLevel) (g : State) : State :=
  let moduleCount := int_toString (Z.of_nat (getModuleCount qr)) in
  let info :=
    Elem "div" []
      [("marginTop", lit "10px"); ("fontSize", lit "12px"); ("color", lit "#666")]
      (lit "QR Code: " ++ moduleCount ++ lit "x" ++ moduleCount
         ++ lit " modules | " ++ lit "Text: " ++ int_toString textLength
         ++ lit " chars | " ++ lit "Error correction: "
         ++ level_toString errorCorrection)
      [] in
  set_qrCodeContainer (qrCodeContainer g ++ [info]) g.

Definition emptyTextMessage : jsstring := lit "Please enter some text first!".

Definition tooLongMessage (maxLength : Z) : jsstring :=
  lit "Text is too long! Maximum " ++ int_toString maxLength
    ++ lit " characters allowed.".

Definition encoderFailureMessage : jsstring :=
  lit "Error generating QR code. The text might be too long or contain unsupported characters.".

(** [generateQRCode()]. *)
Definition generateQRCode (g : State) : State :=
  let text := trim (textInput_value g) in
  if negb (truthy text) then showError emptyTextMessage g
  else if (JS.length text >? maxLength g)%Z then
    showError (tooLongMessage (maxLength g)) g
  else
    let textByteArray := TextEncoder_encode text in
    let g := set_qrCodeContainer [] g in
    let g := set_errorContainer_textContent [] g in
    let errorCorrectionLevel := getOptimalErrorCorrection textByteArray in
    let g :=
      set_encoder_calls
        (encoder_calls g ++ [(errorCorrectionLevel, textByteArray)]) g in
    match qrcode errorCorrectionLevel textByteArray with
    | Return qr =>
        let svg := createQRCodeSVG qr in
        let g := set_qrCodeContainer (qrCodeContainer g ++ [svg]) g in
        showQRCodeInfo qr (JS.length text) errorCorrectionLevel g
    | Throw error =>
        let g := set_console_error (console_error g ++ [error]) g in
        showError encoderFailureMessage g
    end.

End Rendering.

(** Validation let the text through: going from [before] to [after], one
    more request reached the encoder. *)
Definition reaches_encoder (before after : State) : Prop :=
  exists call, encoder_calls after = encoder_calls before ++ [call].

(** The cells [(row, col)] of the module grid in row-major order, and
    those of them the encoder reports dark. *)
Definition cells (qr : QRCode) : list (nat * nat) :=
  list_prod (seq 0 (getModuleCount qr)) (seq 0 (getModuleCount qr)).

Definition darkCells (qr : QRCode) : list (nat * nat) :=
  filter (fun cell => isDark qr (fst cell) (snd cell)) (cells qr).

End Generator.

(* ------------------------------------------------------------------ *)
(** ** The scanner controller ([QRScanner]) *)

Module Scanner.

Record Point := { x : float; y : float }.

(** [code.location], as [jsQR] reports it. *)
Record Location := {
  topRightCorner : Point;
  topLeftCorner : Point;
  bottomRightCorner : Point;
  bottomLeftCorner : Point;
  topRightFinderPattern : Point;
  topLeftFinderPattern : Point;
  bottomLeftFinderPattern : Point
}.

(** A decoded symbol: the fields of [jsQR]'s result the controller reads. *)
Record Code := { data : jsstring; location : Location }.

(** A loaded image: its dimensions and the RGBA bytes an off-screen canvas
    of the same size reads back from it. *)
Record Image := { width : float; height : float; pixels : list N }.

(** The off-screen canvas of [displayQRCodeArea] and the one [drawImage]
    call made on it: canvas size, source rectangle, destination rectangle. *)
Record Crop := {
  canvas_width : float; canvas_height : float;
  sx : float; sy : float; sWidth : float; sHeight : float;
  dx : float; dy : float; dWidth : float; dHeight : float
}.

Record State := {
  resultText_value : jsstring;
  preview_src : jsstring;
  previewArea_classList : classList;
  fileInput_value : jsstring;
  copyBtn_disabled : bool;
  clearBtn_disabled : bool
}.

Definition set_resultText_value (v : jsstring) (s : State) : State :=
  {| resultText_value := v; preview_src := preview_src s;
     previewArea_classList := previewArea_classList s;
     fileInput_value := fileInput_value s;
     copyBtn_disabled := copyBtn_disabled s;
     clearBtn_disabled := clearBtn_disabled s |}.

Definition set_preview_src (v : jsstring) (s : State) : State :=
  {| resultText_value := resultText_value s; preview_src := v;
     previewArea_classList := previewArea_classList s;
     fileInput_value := fileInput_value s;
     copyBtn_disabled := copyBtn_disabled s;
     clearBtn_disabled := clearBtn_disabled s |}.

Definition set_previewArea_classList (c : classList) (s : State) : State :=
  {| resultText_value := resultText_value s; preview_src := preview_src s;
     previewArea_classList := c;
     fileInput_value := fileInput_value s;
     copyBtn_disabled := copyBtn_disabled s;
     clearBtn_disabled := clearBtn_disabled s |}.

Definition set_fileInput_value (v : jsstring) (s : State) : State :=
  {| resultText_value := resultText_value s; preview_src := preview_src s;
     previewArea_classList := previewArea_classList s;
     fileInput_value := v;
     copyBtn_disabled := copyBtn_disabled s;
     clearBtn_disabled := clearBtn_disabled s |}.

Definition set_copyBtn_disabled (b : bool) (s : State) : State :=
  {| resultText_value := resultText_value s; preview_src := preview_src s;
     previewArea_classList := previewArea_classList s;
     fileInput_value := fileInput_value s;
     copyBtn_disabled := b;
     clearBtn_disabled := clearBtn_disabled s |}.

Definition set_clearBtn_disabled (b : bool) (s : State) : State :=
  {| resultText_value := resultText_value s; preview_src := preview_src s;
     previewArea_classList := previewArea_classList s;
     fileInput_value := fileInput_value s;
     copyBtn_disabled := copyBtn_disabled s;
     clearBtn_disabled := b |}.

(** [toggleButtons()]. *)
Definition toggleButtons (s : State) : State :=
  let hasText := (JS.length (trim (resultText_value s)) >? 0)%Z in
  set_clearBtn_disabled (negb hasText) (set_copyBtn_disabled (negb hasText) s).

(** [clearResults()]. *)
Definition clearResults (s : State) : State :=
  let s := set_resultText_value [] s in
  let s :=
    set_previewArea_classList
      (classList_add "hidden" (previewArea_classList s)) s in
  let s := set_preview_src [] s in
  let s := set_fileInput_value [] s in
  toggleButtons s.

Definition padding : float := 10%float.

Definition qrWidth (location : Location) : float :=
  (x (bottomRightCorner location) - x (topLeftCorner location)
   + padding * 2)%float.

Definition qrHeight (location : Location) : float :=
  (y (bottomRightCorner location) - y (topLeftCorner location)
   + padding * 2)%float.

(** The canvas size and the arguments of [qrCtx.drawImage] in
    [displayQRCodeArea]. *)
Definition cropOf (location : Location) : Crop :=
  {| canvas_width := qrWidth location;
     canvas_height := qrHeight location;
     sx := (x (topLeftCorner location) - padding)%float;
     sy := (y (topLeftCorner location) - padding)%float;
     sWidth := qrWidth location;
     sHeight := qrHeight location;
     dx := 0%float;
     dy := 0%float;
     dWidth := qrWidth location;
     dHeight := qrHeight location |}.

Section Decoding.

(** [qrCanvas.toDataURL()] after the image was drawn as the crop says:
    the platform's rendering. *)
Variable toDataURL : Image -> Crop -> jsstring.

(** [jsQR(data, width, height, { inversionAttempts: "dontInvert" })]:
    a decoded symbol, [null], or an exception. *)
Variable jsQR : list N -> float -> float -> Completion (option Code).

(** [displayQRCodeArea(location, originalImg)]. *)
Definition displayQRCodeArea (location : Location) (originalImg : Image)
  (s : State) : State :=
  let s := set_preview_src (toDataURL originalImg (cropOf location)) s in
  set_previewArea_classList
    (classList_remove "hidden" (previewArea_classList s)) s.

(** [scanQRCode(img)]. *)
Definition scanQRCode (img : Image) (s : State) : State :=
  match jsQR (pixels img) (width img) (height img) with
  | Return (Some code) =>
      let s := set_resultText_value (textarea_value (data code)) s in
      let s := displayQRCodeArea (location code) img s in
      toggleButtons s
  | Return None =>
      let s := set_resultText_value (lit "No QR code found") s in
      set_previewArea_classList
        (classList_add "hidden" (previewArea_classList s)) s
  | Throw error =>
      let s :=
        set_resultText_value
          (textarea_value (lit "Error scanning QR code: " ++ message error))
          s in
      set_previewArea_classList
        (classList_add "hidden" (previewArea_classList s)) s
  end.

End Decoding.

(** The preview area is shown unless its class list holds [hidden]. *)
Definition preview_hidden (s : State) : bool :=
  classList_contains "hidden" (previewArea_classList s).

(** What the specification asks of the copy and clear buttons. *)
Definition buttons_follow_text (s : State) : Prop :=
  copyBtn_disabled s = negb (truthy (trim (resultText_value s)))
  /\ clearBtn_disabled s = negb (truthy (trim (resultText_value s))).

End Scanner.

(* ------------------------------------------------------------------ *)
(** ** Stand-ins for the external collaborators

    Concrete encoders, decoders and platform functions, used where a
    property is evaluated on an explicit input. *)

Module Sample.

Import Generator Scanner.

(** An encoder that makes a [n] by [n] checkerboard for up to [capacity]
    bytes and throws, as qrcode-generator does, beyond it. *)
Definition checkerboard (n : nat) : QRCode :=
  {| getModuleCount := n; isDark := fun row col => Nat.even (row + col) |}.

Definition overflowError : Error :=
  {| message := lit "code length overflow." |}.

Definition qrcode_upto (capacity : Z) (n : nat)
  (level : ErrorCorrectionLevel) (bytes : list N) : Completion QRCode :=
  if (JS.length bytes >? capacity)%Z then Throw overflowError
  else Return (checkerboard n).

(** Decimal rendering of the few numbers the sample symbols need. *)
Definition toString_small (v : float) : jsstring :=
  if (v =? 0)%float then lit "0"
  else if (v =? 100)%float then lit "100"
  else if (v =? 200)%float then lit "200"
  else lit "?".

(** A freshly constructed generator: empty input, nothing rendered, the
    maximum of the page's [new QRCodeGenerator(..., 1000)]. *)
Definition freshGenerator : Generator.State :=
  {| textInput_value := [];
     qrCodeContainer := [];
     errorContainer_textContent := [];
     maxLength := 1000;
     now := 0;
     timeouts := [];
     encoder_calls := [];
     console_error := [] |}.

Definition typed (text : jsstring) : Generator.State :=
  set_textInput_value text freshGenerator.

(** A generator showing the symbol of an earlier generation. *)
Definition rendered : Generator.State :=
  generateQRCode toString_small (qrcode_upto 10 2) (typed (lit "hi")).

Definition point (px py : float) : Point := {| x := px; y := py |}.

(** An upright symbol whose corners are [(l, t)] and [(r, b)]. *)
Definition box (l t r b : float) : Location :=
  {| topRightCorner := point r t;
     topLeftCorner := point l t;
     bottomRightCorner := point r b;
     bottomLeftCorner := point l b;
     topRightFinderPattern := point r t;
     topLeftFinderPattern := point l t;
     bottomLeftFinderPattern := point l b |}.

(** A symbol turned by half a turn: its top-left corner is at the lower
    right of the picture. *)
Definition upsideDown : Location := box 150 150 50 50.

Definition picture : Image :=
  {| width := 200%float; height := 200%float; pixels := [] |}.

Definition jsQR_null (d : list N) (w h : float) : Completion (option Code) :=
  Return None.

Definition jsQR_throws (m : jsstring) (d : list N) (w h : float)
  : Completion (option Code) :=
  Throw {| message := m |}.

Definition jsQR_finds (c : Code) (d : list N) (w h : float)
  : Completion (option Code) :=
  Return (Some c).

Definition dataURL (img : Image) (c : Crop) : jsstring := lit "data:image/png".

(** A scanner showing an earlier result, its preview visible. *)
Definition scanned : Scanner.State :=
  {| resultText_value := lit "https://example.org";
     preview_src := lit "data:image/png";
     previewArea_classList := ["preview-area"];
     fileInput_value := lit "C:\fakepath\code.png";
     copyBtn_disabled := false;
     clearBtn_disabled := false |}.

End Sample.

(* ------------------------------------------------------------------ *)
(** ** The generator: typing and pasting *)

Module GeneratorInput.

Import Generator.

(** [length > maxLength * 0.8], in the numbers of the language. *)
#[warnings="-inexact-float"]
Definition overEightyPercent (maxLength length : Z) : bool :=
  (number_of_Z maxLength * 0.8 <? number_of_Z length)%float.

Definition warningMessage (remaining : Z) : jsstring :=
  lit "Warning: " ++ int_toString remaining
    ++ lit " characters remaining. Very long text may not fit in QR code.".

(** [validateInputLength()]. *)
Definition validateInputLength (g : State) : State :=
  let text := textInput_value g in
  if overEightyPercent (maxLength g) (JS.length text) then
    let remaining := (maxLength g - JS.length text)%Z in
    set_errorContainer_textContent (warningMessage remaining) g
  else set_errorContainer_textContent [] g.

(** Whether the comparison agrees with the exact [5 * length > 4 *
    maxLength] on the [count] lengths from [start] on, and on every
    length up to the maximum for the [count] maxima from [start] on. *)
Fixpoint agreesFrom (maxLength : Z) (count : nat) (start : Z) : bool :=
  match count with
  | O => true
  | S k =>
      Bool.eqb (overEightyPercent maxLength start)
               (4 * maxLength <? 5 * start)%Z
      && agreesFrom maxLength k (start + 1)%Z
  end.

Fixpoint agreesUpTo (count : nat) (start : Z) : bool :=
  match count with
  | O => true
  | S k =>
      agreesFrom start (S (Z.to_nat start)) 0%Z && agreesUpTo k (start + 1)%Z
  end.

(** The user edits the text area to hold [value]: the [input] listener
    runs. *)
Definition input (value : jsstring) (g : State) : State :=
  validateInputLength (set_textInput_value value g).

Definition pasteTooLongMessage (maxLength : Z) : jsstring :=
  lit "Pasted text is too long! Only first " ++ int_toString maxLength
    ++ lit " characters will be used.".

Definition pasteFailureMessage : jsstring :=
  lit "Unable to paste from clipboard. Please check browser permissions.".

(** [pasteText()], resumed with what [navigator.clipboard.readText()]
    settled to: the text, or the rejection. *)
Definition pasteText (clipboard : Completion jsstring) (g : State) : State :=
  match clipboard with
  | Return text =>
      let g :=
        if (JS.length text >? maxLength g)%Z then
          let g := showError (pasteTooLongMessage (maxLength g)) g in
          set_textInput_value
            (textarea_value (substring text 0 (maxLength g))) g
        else set_textInput_value (textarea_value text) g in
      validateInputLength g
  | Throw error =>
      let g := set_console_error (console_error g ++ [error]) g in
      showError pasteFailureMessage g
  end.

Section Keys.

Variable number_toString : float -> jsstring.
Variable qrcode : ErrorCorrectionLevel -> list N -> Completion QRCode.

(** The [keypress] listener of the text area: Enter without Shift
    generates. *)
Definition keypress (key : jsstring) (shiftKey : bool) (g : State) : State :=
  if list_eq_dec N.eq_dec key (lit "Enter") then
    if negb shiftKey then generateQRCode number_toString qrcode g else g
  else g.

End Keys.

End GeneratorInput.

(* ------------------------------------------------------------------ *)
(** ** The scanner: files, drops, pastes and the copy button *)

Module ScannerEvents.

Import Scanner.

(** A [File] or [Blob]: its MIME type. *)
Record File := { type : jsstring }.

(** A [DataTransferItem] of a paste: its type and what [getAsFile()]
    returns. *)
Record Item := { item_type : jsstring; getAsFile : option File }.

(** The scanner with the rest of the page it touches: the drop area's
    classes, the copy button's label, the alerts raised, the selections
    handed to [execCommand("copy")], and the event loop's clock with the
    pending label restorations (due time and the label to put back). *)
Record Page := {
  scanner : Scanner.State;
  dropArea_classList : classList;
  copyBtn_textContent : jsstring;
  alerts : list jsstring;
  copied : list jsstring;
  now : N;
  timeouts : list (N * jsstring)
}.

Definition set_scanner (v : Scanner.State) (p : Page) : Page :=
  {| scanner := v; dropArea_classList := dropArea_classList p;
     copyBtn_textContent := copyBtn_textContent p; alerts := alerts p;
     copied := copied p; now := now p; timeouts := timeouts p |}.

Definition set_dropArea_classList (v : classList) (p : Page) : Page :=
  {| scanner := scanner p; dropArea_classList := v;
     copyBtn_textContent := copyBtn_textContent p; alerts := alerts p;
     copied := copied p; now := now p; timeouts := timeouts p |}.

Definition set_copyBtn_textContent (v : jsstring) (p : Page) : Page :=
  {| scanner := scanner p; dropArea_classList := dropArea_classList p;
     copyBtn_textContent := v; alerts := alerts p;
     copied := copied p; now := now p; timeouts := timeouts p |}.

Definition set_alerts (v : list jsstring) (p : Page) : Page :=
  {| scanner := scanner p; dropArea_classList := dropArea_classList p;
     copyBtn_textContent := copyBtn_textContent p; alerts := v;
     copied := copied p; now := now p; timeouts := timeouts p |}.

Definition set_copied (v : list jsstring) (p : Page) : Page :=
  {| scanner := scanner p; dropArea_classList := dropArea_classList p;
     copyBtn_textContent := copyBtn_textContent p; alerts := alerts p;
     copied := v; now := now p; timeouts := timeouts p |}.

Definition set_now (v : N) (p : Page) : Page :=
  {| scanner := scanner p; dropArea_classList := dropArea_classList p;
     copyBtn_textContent := copyBtn_textContent p; alerts := alerts p;
     copied := copied p; now := v; timeouts := timeouts p |}.

Definition set_timeouts (v : list (N * jsstring)) (p : Page) : Page :=
  {| scanner := scanner p; dropArea_classList := dropArea_classList p;
     copyBtn_textContent := copyBtn_textContent p; alerts := alerts p;
     copied := copied p; now := now p; timeouts := v |}.

(** [handleDragOver(e)] and [handleDragLeave()]. *)
Definition handleDragOver (p : Page) : Page :=
  set_dropArea_classList (classList_add "dragover" (dropArea_classList p)) p.

Definition handleDragLeave (p : Page) : Page :=
  set_dropArea_classList (classList_remove "dragover" (dropArea_classList p)) p.

(** [copyToClipboard()]: the whole result text is selected and copied,
    the label becomes [Copied!], and the label read before is put back
    2000 milliseconds later. *)
Definition copyDelay : N := 2000.

Definition copyToClipboard (p : Page) : Page :=
  let p := set_copied (copied p ++ [resultText_value (scanner p)]) p in
  let originalText := copyBtn_textContent p in
  let p := set_copyBtn_textContent (lit "Copied!") p in
  set_timeouts (timeouts p ++ [((now p + copyDelay)%N, originalText)]) p.

(** [d] milliseconds pass with no other event: the restorations due by
    then run in the order they were scheduled (all have the same delay,
    so that is the order of their due times) and leave the queue. *)
Definition advance (d : N) (p : Page) : Page :=
  let t := (now p + d)%N in
  let due := filter (fun r => (fst r <=? t)%N) (timeouts p) in
  let label := fold_left (fun _ r => snd r) due (copyBtn_textContent p) in
  set_timeouts (filter (fun r => negb (fst r <=? t)%N) (timeouts p))
    (set_copyBtn_textContent label (set_now t p)).

(** [file.type.match("image.*")]: the pattern is not anchored, so it is
    the test for [image] anywhere in the type. *)
Definition matchesImage (t : jsstring) : bool := includes (lit "image") t.

Section Reading.

Variable toDataURL : Image -> Crop -> jsstring.
Variable jsQR : list N -> float -> float -> Completion (option Code).

(** [reader.readAsDataURL(file)]: the data URL handed to [onload], or
    nothing when the read fails and [onload] never runs. *)
Variable readAsDataURL : File -> option jsstring.

(** [tempImg.src = url]: the decoded image handed to [tempImg.onload],
    or nothing when the data is no picture and [onload] never runs. *)
Variable loadImage : jsstring -> option Image.

(** [processFile(file)], with its two callbacks run. *)
Definition processFile (file : File) (p : Page) : Page :=
  if negb (matchesImage (type file)) then
    set_alerts (alerts p ++ [lit "Please select an image file"]) p
  else
    match readAsDataURL file with
    | None => p
    | Some url =>
        match loadImage url with
        | None => p
        | Some tempImg =>
            let s := set_preview_src url (scanner p) in
            set_scanner (scanQRCode toDataURL jsQR tempImg s) p
        end
    end.

(** [handleDrop(e)], [files] being [e.dataTransfer?.files]. *)
Definition handleDrop (files : list File) (p : Page) : Page :=
  let p := handleDragLeave p in
  match files with
  | file :: _ => processFile file p
  | [] => p
  end.

(** [handleFileSelect(e)]. *)
Definition handleFileSelect (files : list File) (p : Page) : Page :=
  match files with
  | file :: _ => processFile file p
  | [] => p
  end.

(** The loop of [handlePaste(e)] from the item at hand on: the first
    image item that yields a file is processed and ends the loop. *)
Fixpoint handlePaste_from (items : list Item) (p : Page) : Page :=
  match items with
  | [] => p
  | item :: rest =>
      if includes (lit "image") (item_type item) then
        match getAsFile item with
        | Some blob => processFile blob p
        | None => handlePaste_from rest p
        end
      else handlePaste_from rest p
  end.

(** [handlePaste(e)], [items] being [e.clipboardData?.items]. *)
Definition handlePaste (items : option (list Item)) (p : Page) : Page :=
  match items with
  | None => p
  | Some items => handlePaste_from items p
  end.

End Reading.

(** The user edits the result field to hold [value]: the [input]
    listener runs [toggleButtons]. *)
Definition input (value : jsstring) (p : Page) : Page :=
  set_scanner (toggleButtons (set_resultText_value value (scanner p))) p.

(** The click listener of the clear button. *)
Definition clear (p : Page) : Page :=
  set_scanner (clearResults (scanner p)) p.

End ScannerEvents.

(** A generator constructed with a maximum of 3. *)
Definition tinyGenerator : Generator.State :=
  {| Generator.textInput_value := [];
     Generator.qrCodeContainer := [];
     Generator.errorContainer_textContent := [];
     Generator.maxLength := 3;
     Generator.now := 0;
     Generator.timeouts := [];
     Generator.encoder_calls := [];
     Generator.console_error := [] |}.

(** Stand-ins for the page around the scanner. *)
Module SamplePage.

Import Scanner ScannerEvents.

Definition png : File := {| type := lit "image/png" |}.

Definition text : File := {| type := lit "text/plain" |}.

Definition readAsDataURL (f : File) : option jsstring :=
  Some (lit "data:" ++ type f ++ lit ";base64,").

Definition loadImage (url : jsstring) : option Image := Some Sample.picture.

Definition freshPage : Page :=
  {| scanner := clearResults Sample.scanned;
     dropArea_classList := ["drop-area"];
     copyBtn_textContent := lit "Copy";
     alerts := [];
     copied := [];
     now := 0;
     timeouts := [] |}.

End SamplePage.

(* ------------------------------------------------------------------ *)
(** ** Strings: facts used below *)

Example int_toString_1000 : int_toString 1000 = lit "1000".
Proof. reflexivity. Qed.

Example int_toString_0 : int_toString 0 = lit "0".
Proof. reflexivity. Qed.

Example trim_spaces : trim (lit "  a b  ") = lit "a b".
Proof. reflexivity. Qed.

(** U+1F600 is the surrogate pair D83D DE00 and the bytes F0 9F 98 80. *)
Example encode_emoji :
  TextEncoder_encode [0xD83D; 0xDE00]%N = [0xF0; 0x9F; 0x98; 0x80]%N.
Proof. reflexivity. Qed.

Example encode_euro : TextEncoder_encode [0x20AC]%N = [0xE2; 0x82; 0xAC]%N.
Proof. reflexivity. Qed.

Lemma truthy_length (s : jsstring) : truthy s = (JS.length s >? 0)%Z.
Proof.
  destruct s as [|u s]; [reflexivity|].
  unfold JS.length; cbn [truthy List.length].
  symmetry; apply Z.gtb_lt; lia.
Qed.

Lemma length_nonneg {A : Type} (s : list A) : (0 <= JS.length s)%Z.
Proof. unfold JS.length; lia. Qed.

Lemma length_zero_nil {A : Type} (s : list A) : JS.length s = 0%Z -> s = [].
Proof. destruct s; [reflexivity|unfold JS.length; cbn; lia]. Qed.

(** Text without a carriage return is read back from a [textarea] as it
    was written, also in front of other text. *)
Lemma normalizeNewlines_app_clean (a b : jsstring) :
  Forall (fun u => u <> 0x0D%N) a ->
  normalizeNewlines (a ++ b) = a ++ normalizeNewlines b.
Proof.
  induction 1 as [|u a Hu Ha IH]; [reflexivity|].
  cbn [app normalizeNewlines].
  destruct (N.eqb_spec u 0x0D); [contradiction|].
  now rewrite IH.
Qed.

Lemma normalizeNewlines_clean (s : jsstring) :
  Forall (fun u => u <> 0x0D%N) s -> normalizeNewlines s = s.
Proof.
  intros H. rewrite <- (app_nil_r s) at 1.
  rewrite normalizeNewlines_app_clean by exact H.
  cbn. apply app_nil_r.
Qed.

Lemma classList_contains_add (t : string) (c : classList) :
  classList_contains t (classList_add t c) = true.
Proof.
  unfold classList_add.
  destruct (classList_contains t c) eqn:E; [exact E|].
  unfold classList_contains.
  rewrite existsb_app; cbn.
  rewrite String.eqb_refl.
  now rewrite orb_true_r.
Qed.

Lemma classList_add_idempotent (t : string) (c : classList) :
  classList_add t (classList_add t c) = classList_add t c.
Proof.
  unfold classList_add at 1.
  now rewrite classList_contains_add.
Qed.

Lemma classList_contains_remove (t : string) (c : classList) :
  classList_contains t (classList_remove t c) = false.
Proof.
  unfold classList_contains, classList_remove.
  induction c as [|a c IH]; [reflexivity|].
  cbn [filter].
  destruct (String.eqb t a) eqn:E; cbn [negb]; [exact IH|].
  cbn [existsb]. now rewrite E, IH.
Qed.

(* ------------------------------------------------------------------ *)
(** ** The generator: error-correction level *)

Module GeneratorProofs.

Import Generator.

Local Open Scope Z_scope.

Ltac level_cases :=
  unfold getOptimalErrorCorrection;
  repeat match goal with
         | |- context [?a >? ?b] => destruct (Z.gtb_spec a b)
         end.

(** The level depends on the length alone, whatever the elements are. *)
Lemma getOptimalErrorCorrection_length_only (A B : Type)
  (text : list A) (other : list B) :
  JS.length text = JS.length other ->
  getOptimalErrorCorrection text = getOptimalErrorCorrection other.
Proof. intros E; unfold getOptimalErrorCorrection; now rewrite E. Qed.

(** C1: the level is a step function of the length with steps right after
    100, 200 and 500: above 500 it is L, above 200 M, above 100 Q and H
    otherwise; a longer text never gets a more robust level. *)
Theorem getOptimalErrorCorrection_step (A : Type) (text longer : list A)
  (Hle : JS.length text <= JS.length longer) :
  (getOptimalErrorCorrection text = L <-> 500 < JS.length text)
  /\ (getOptimalErrorCorrection text = M <-> 200 < JS.length text <= 500)
  /\ (getOptimalErrorCorrection text = Q <-> 100 < JS.length text <= 200)
  /\ (getOptimalErrorCorrection text = H <-> JS.length text <= 100)
  /\ recovery_percent (getOptimalErrorCorrection longer)
     <= recovery_percent (getOptimalErrorCorrection text).
Proof.
  assert (Hmono : recovery_percent (getOptimalErrorCorrection longer)
                  <= recovery_percent (getOptimalErrorCorrection text))
    by (revert Hle; level_cases; cbn [recovery_percent]; lia).
  repeat apply conj; try exact Hmono;
    level_cases; intros; solve [lia | discriminate | reflexivity].
Qed.

Lemma getOptimalErrorCorrection_step_witness :
  getOptimalErrorCorrection (repeat 65%N 150) = Q
  /\ recovery_percent (getOptimalErrorCorrection (repeat 65%N 600))
     <= recovery_percent (getOptimalErrorCorrection (repeat 65%N 150)).
Proof.
  assert (Hle : JS.length (repeat 65%N 150) <= JS.length (repeat 65%N 600))
    by (vm_compute; discriminate).
  pose proof (getOptimalErrorCorrection_step (repeat 65%N 150) (repeat 65%N 600) Hle)
    as (_ & _ & HQ & _ & Hmono).
  split; [apply HQ; vm_compute; split; [reflexivity|discriminate] | exact Hmono].
Defined.

(** The steps, on both sides of each boundary and at the lengths the
    specification names. *)
Example getOptimalErrorCorrection_examples :
  map (fun n => getOptimalErrorCorrection (repeat 65%N n))
      [0; 50; 100; 101; 150; 200; 201; 300; 500; 501; 600]%nat
  = [H; H; H; Q; Q; Q; M; M; M; L; L].
Proof. vm_compute; reflexivity. Qed.

(* ------------------------------------------------------------------ *)
(** ** The generator: validation and encoder failure *)

Section Generation.

Variable number_toString : float -> jsstring.
Variable qrcode : ErrorCorrectionLevel -> list N -> Completion QRCode.

Local Abbreviation generate := (generateQRCode number_toString qrcode).

Lemma showError_encoder_calls (m : jsstring) (g : State) :
  encoder_calls (showError m g) = encoder_calls g.
Proof. reflexivity. Qed.

Lemma not_reaches_encoder_same (g g' : State) :
  encoder_calls g' = encoder_calls g -> ~ reaches_encoder g g'.
Proof.
  intros E [call Hcall]. rewrite E in Hcall.
  apply (f_equal (@List.length _)) in Hcall.
  rewrite length_app in Hcall; cbn in Hcall; lia.
Qed.

(** What [generateQRCode] does on each side of its two guards. *)
Lemma generateQRCode_empty (g : State) :
  JS.length (trim (textInput_value g)) = 0 ->
  generate g = showError emptyTextMessage g.
Proof.
  intros E. unfold generateQRCode.
  now rewrite (length_zero_nil _ E).
Qed.

Lemma generateQRCode_tooLong (g : State) :
  0 < JS.length (trim (textInput_value g)) ->
  maxLength g < JS.length (trim (textInput_value g)) ->
  generate g = showError (tooLongMessage (maxLength g)) g.
Proof.
  intros Hpos Hlong. unfold generateQRCode.
  rewrite truthy_length.
  destruct (Z.gtb_spec (JS.length (trim (textInput_value g))) 0); [|lia].
  cbn [negb].
  destruct (Z.gtb_spec (JS.length (trim (textInput_value g))) (maxLength g));
    [reflexivity|lia].
Qed.

Lemma generateQRCode_valid (g : State) :
  0 < JS.length (trim (textInput_value g)) <= maxLength g ->
  let text := trim (textInput_value g) in
  let bytes := TextEncoder_encode text in
  let level := getOptimalErrorCorrection bytes in
  let cleared :=
    set_encoder_calls (encoder_calls g ++ [(level, bytes)])
      (set_errorContainer_textContent [] (set_qrCodeContainer [] g)) in
  generate g =
  match qrcode level bytes with
  | Return qr =>
      showQRCodeInfo qr (JS.length text) level
        (set_qrCodeContainer [createQRCodeSVG number_toString qr] cleared)
  | Throw error =>
      showError encoderFailureMessage
        (set_console_error (console_error g ++ [error]) cleared)
  end.
Proof.
  intros [Hpos Hmax]. unfold generateQRCode.
  rewrite truthy_length.
  destruct (Z.gtb_spec (JS.length (trim (textInput_value g))) 0); [|lia].
  cbn [negb].
  destruct (Z.gtb_spec (JS.length (trim (textInput_value g))) (maxLength g));
    [lia|].
  cbv zeta.
  destruct (qrcode _ _); reflexivity.
Qed.

(** C2, as the code has it: validation looks at the text with the white
    space at its two ends removed.  That text reaches the encoder exactly
    when its length is above 0 and at most the maximum; with length 0 the
    [enter some text] message is shown, above the maximum the [too long]
    message, and in both cases nothing reaches the encoder and the
    rendered symbol is left as it was. *)
Theorem generateQRCode_validation (g : State) :
  let text := trim (textInput_value g) in
  (reaches_encoder g (generate g) <-> 0 < JS.length text <= maxLength g)
  /\ (JS.length text = 0 -> generate g = showError emptyTextMessage g)
  /\ (0 < JS.length text -> maxLength g < JS.length text ->
      generate g = showError (tooLongMessage (maxLength g)) g)
  /\ (~ (0 < JS.length text <= maxLength g) ->
      encoder_calls (generate g) = encoder_calls g
      /\ qrCodeContainer (generate g) = qrCodeContainer g).
Proof.
  intros text.
  assert (Hrej : ~ (0 < JS.length text <= maxLength g) ->
                 encoder_calls (generate g) = encoder_calls g
                 /\ qrCodeContainer (generate g) = qrCodeContainer g).
  { intros Hno. pose proof (length_nonneg text) as Hnn.
    destruct (Z.eq_dec (JS.length text) 0) as [E|NE].
    - rewrite (generateQRCode_empty g E); split; reflexivity.
    - rewrite (generateQRCode_tooLong g); [split; reflexivity| |];
        fold text; lia. }
  split; [|split; [apply generateQRCode_empty|split;
    [apply generateQRCode_tooLong|exact Hrej]]].
  split.
  - intros Hreach.
    destruct (Z.lt_ge_cases 0 (JS.length text)) as [Hpos|Hzero];
      [destruct (Z.le_gt_cases (JS.length text) (maxLength g)) as [Hle|Hgt]|].
    + split; assumption.
    + exfalso. apply (not_reaches_encoder_same (g := g) (g' := generate g));
        [apply Hrej; lia|exact Hreach].
    + exfalso. apply (not_reaches_encoder_same (g := g) (g' := generate g));
        [apply Hrej; lia|exact Hreach].
  - intros Hok. unfold reaches_encoder.
    rewrite (generateQRCode_valid g Hok).
    destruct (qrcode _ _); eexists; reflexivity.
Qed.

(** C6: when the encoder throws, the container is emptied and stays
    empty, and the message [Error generating QR code. ...] is shown. *)
Theorem generateQRCode_encoder_failure (g : State) (e : Error) :
  let text := trim (textInput_value g) in
  0 < JS.length text <= maxLength g ->
  qrcode (getOptimalErrorCorrection (TextEncoder_encode text))
         (TextEncoder_encode text) = Throw e ->
  qrCodeContainer (generate g) = []
  /\ errorContainer_textContent (generate g)
     = lit "Error generating QR code. The text might be too long or contain unsupported characters."
  /\ errorContainer_textContent (generate g) <> []
  /\ console_error (generate g) = console_error g ++ [e]
  /\ forall d, qrCodeContainer (advance d (generate g)) = [].
Proof.
  intros text Hok Hthrow.
  rewrite (generateQRCode_valid g Hok). fold text. rewrite Hthrow.
  split; [reflexivity|]. split; [reflexivity|].
  split; [discriminate|]. split; [reflexivity|].
  intros d. unfold advance.
  match goal with |- context [existsb ?f ?l] => destruct (existsb f l) end;
    reflexivity.
Qed.

End Generation.

(** Three spaces: a text of length 3, within the maximum of 1000, that
    validation turns away with the [enter some text] message. *)
Lemma generateQRCode_rejects_blank_text :
  let g := Sample.typed (lit "   ") in
  let g' := generateQRCode Sample.toString_small (Sample.qrcode_upto 10 2) g in
  ~ (reaches_encoder g g'
     <-> 0 < JS.length (textInput_value g) <= maxLength g)
  /\ errorContainer_textContent g' = emptyTextMessage.
Proof.
  cbv zeta. split; [|reflexivity].
  intros [_ Hback].
  apply (not_reaches_encoder_same
           (g := Sample.typed (lit "   "))
           (g' := generateQRCode Sample.toString_small (Sample.qrcode_upto 10 2)
                    (Sample.typed (lit "   "))));
    [reflexivity|].
  apply Hback. vm_compute. split; [reflexivity|discriminate].
Qed.

Lemma generateQRCode_validation_witness :
  let g := Sample.typed (lit " hi ") in
  let g' := generateQRCode Sample.toString_small (Sample.qrcode_upto 10 2) g in
  reaches_encoder g g'
  /\ encoder_calls g' = [(H, [104; 105]%N)]
  /\ generateQRCode Sample.toString_small (Sample.qrcode_upto 10 2)
       (Sample.typed (lit "   "))
     = showError emptyTextMessage (Sample.typed (lit "   ")).
Proof.
  cbv zeta.
  pose proof (generateQRCode_validation Sample.toString_small
                (Sample.qrcode_upto 10 2) (Sample.typed (lit " hi ")))
    as (Hiff & _).
  pose proof (generateQRCode_validation Sample.toString_small
                (Sample.qrcode_upto 10 2) (Sample.typed (lit "   ")))
    as (_ & Hempty & _).
  split; [apply Hiff; vm_compute; split; [reflexivity|discriminate]|].
  split; [reflexivity|].
  apply Hempty. reflexivity.
Defined.

(** The level is chosen from the UTF-8 bytes, not from the characters: 60
    times U+00E9 is 120 bytes and gets Q, 60 times the letter e gets H. *)
Example generateQRCode_level_from_bytes :
  map fst (encoder_calls
             (generateQRCode Sample.toString_small (Sample.qrcode_upto 200 2)
                (Sample.typed (repeat 0xE9%N 60))))
  = [Q]
  /\ map fst (encoder_calls
                (generateQRCode Sample.toString_small (Sample.qrcode_upto 200 2)
                   (Sample.typed (repeat 0x65%N 60))))
     = [H].
Proof. vm_compute. split; reflexivity. Qed.

(** A symbol is on display; the next text is beyond what the encoder
    takes: the symbol is gone and the failure message is shown. *)
Lemma generateQRCode_encoder_failure_witness :
  let g := set_textInput_value (lit "a longer text") Sample.rendered in
  let g' := generateQRCode Sample.toString_small (Sample.qrcode_upto 10 2) g in
  List.length (qrCodeContainer g) = 2%nat
  /\ qrCodeContainer g' = []
  /\ errorContainer_textContent g'
     = lit "Error generating QR code. The text might be too long or contain unsupported characters.".
Proof.
  cbv zeta.
  split; [reflexivity|].
  assert (Hok : 0 < JS.length (trim (textInput_value
                  (set_textInput_value (lit "a longer text") Sample.rendered)))
                <= maxLength (set_textInput_value (lit "a longer text")
                                Sample.rendered))
    by (vm_compute; split; [reflexivity|discriminate]).
  destruct (generateQRCode_encoder_failure Sample.toString_small
              (Sample.qrcode_upto 10 2)
              (set_textInput_value (lit "a longer text") Sample.rendered)
              (e := Sample.overflowError) Hok eq_refl)
    as (Hempty & Hmsg & _).
  split; assumption.
Defined.

(* ------------------------------------------------------------------ *)
(** ** The generator: error messages and their timeouts *)

Local Open Scope N_scope.

Lemma advance_now (d : N) (g : State) : now (advance d g) = now g + d.
Proof.
  unfold advance; cbv zeta.
  match goal with |- context [existsb ?f ?l] => destruct (existsb f l) end;
    reflexivity.
Qed.

(** A timeout that is due when the time has passed empties the error
    container. *)
Lemma advance_due (d due : N) (g : State) :
  In due (timeouts g) -> due <= now g + d ->
  errorContainer_textContent (advance d g) = [].
Proof.
  intros Hin Hdue. unfold advance; cbv zeta.
  match goal with |- context [existsb ?f ?l] => destruct (existsb f l) eqn:E end;
    [reflexivity|].
  exfalso.
  assert (Ht : existsb (fun t => t <=? now g + d) (timeouts g) = true)
    by (apply existsb_exists; exists due; split; [exact Hin|now apply N.leb_le]).
  cbn in E. rewrite Ht in E. discriminate.
Qed.

(** A timeout that is not yet due stays in the queue. *)
Lemma advance_pending (d due : N) (g : State) :
  In due (timeouts g) -> now g + d < due ->
  In due (timeouts (advance d g)).
Proof.
  intros Hin Hlater. unfold advance; cbv zeta.
  match goal with |- context [existsb ?f ?l] => destruct (existsb f l) end;
    [|exact Hin].
  cbn. apply filter_In. split; [exact Hin|].
  apply negb_true_iff, N.leb_gt. exact Hlater.
Qed.

(** With no timeout due, the message on display stays. *)
Lemma advance_quiet (d : N) (g : State) :
  (forall due, In due (timeouts g) -> now g + d < due) ->
  errorContainer_textContent (advance d g) = errorContainer_textContent g.
Proof.
  intros Hnone. unfold advance; cbv zeta.
  match goal with |- context [existsb ?f ?l] => destruct (existsb f l) eqn:E end;
    [|reflexivity].
  exfalso. cbn in E. apply existsb_exists in E as (due & Hin & Hle).
  apply N.leb_le in Hle. specialize (Hnone due Hin). lia.
Qed.

Lemma showError_timeout (m : jsstring) (g : State) :
  In (now g + errorDelay) (timeouts (showError m g)).
Proof. cbn. apply in_or_app; right; left; reflexivity. Qed.

(** C7, as the code has it: a message shown by [showError] stays for 5000
    milliseconds when nothing else is pending and is gone once they have
    passed; its timeout is never cancelled, so a message shown [d]
    milliseconds later, before the 5000 are over, is emptied together
    with it, [5000 - d] milliseconds after it appeared. *)
Theorem showError_expiry (g : State) (first second : jsstring) (d : N)
  (Hd : d < errorDelay) :
  errorDelay = 5000
  /\ errorContainer_textContent (showError first g) = first
  /\ (timeouts g = [] ->
      errorContainer_textContent (advance d (showError first g)) = first)
  /\ (forall late, errorDelay <= late ->
      errorContainer_textContent (advance late (showError first g)) = [])
  /\ errorContainer_textContent
       (showError second (advance d (showError first g))) = second
  /\ errorContainer_textContent
       (advance (errorDelay - d)
          (showError second (advance d (showError first g)))) = [].
Proof.
  split; [reflexivity|]. split; [reflexivity|].
  split; [|split; [|split; [reflexivity|]]].
  - intros Hnil. rewrite advance_quiet; [reflexivity|].
    intros due Hin. cbn in Hin. rewrite Hnil in Hin. cbn in Hin.
    destruct Hin as [<-|[]].
    change (now (showError first g)) with (now g).
    unfold errorDelay in *; lia.
  - intros late Hlate.
    apply advance_due with (due := now g + errorDelay);
      [apply showError_timeout|].
    change (now (showError first g)) with (now g). lia.
  - apply advance_due with (due := now g + errorDelay).
    + cbn [showError setTimeout_clearError set_timeouts timeouts
           set_errorContainer_textContent].
      apply in_or_app; left.
      apply advance_pending; [apply showError_timeout|].
      change (now (showError first g)) with (now g).
      unfold errorDelay in *; lia.
    + change (now (showError second (advance d (showError first g))))
        with (now (advance d (showError first g))).
      rewrite advance_now.
      change (now (showError first g)) with (now g).
      unfold errorDelay in *; lia.
Qed.

Lemma showError_expiry_witness :
  let g1 := showError (lit "first") Sample.freshGenerator in
  let g2 := showError (lit "second") (advance 3000 g1) in
  errorContainer_textContent (advance 3000 g1) = lit "first"
  /\ errorContainer_textContent g2 = lit "second"
  /\ errorContainer_textContent (advance (errorDelay - 3000) g2) = [].
Proof.
  cbv zeta.
  assert (Hd : 3000 < errorDelay) by reflexivity.
  destruct (showError_expiry Sample.freshGenerator (lit "first") (lit "second") Hd)
    as (_ & _ & Hstay & _ & Hsecond & Hgone).
  split; [apply Hstay; reflexivity|split; assumption].
Defined.

(** The first message appears at 0 and the second at 3000; at 5000, two
    seconds into the second message, the timeout of the first empties the
    container. *)
Lemma showError_later_message_wiped :
  let g1 := showError (lit "first") Sample.freshGenerator in
  let g2 := showError (lit "second") (advance 3000 g1) in
  errorContainer_textContent (advance 1999 g2) = lit "second"
  /\ now (advance 2000 g2) = 5000
  /\ errorContainer_textContent (advance 2000 g2) <> lit "second"
  /\ timeouts (advance 2000 g2) = [8000].
Proof. cbv zeta. repeat split. discriminate. Qed.

Local Close Scope N_scope.

(** [clearAll] empties the three things the user sees and is idempotent. *)
Lemma clearAll_resets (g : State) :
  textInput_value (clearAll g) = []
  /\ qrCodeContainer (clearAll g) = []
  /\ errorContainer_textContent (clearAll g) = []
  /\ clearAll (clearAll g) = clearAll g.
Proof. repeat split. Qed.

(* ------------------------------------------------------------------ *)
(** ** The generator: rendering the symbol *)

Lemma appendChildren_nil (e : Element) : appendChildren e [] = e.
Proof. destruct e; cbn; now rewrite app_nil_r. Qed.

Lemma appendChildren_app (e : Element) (l1 l2 : list Element) :
  appendChildren (appendChildren e l1) l2 = appendChildren e (l1 ++ l2).
Proof. destruct e; cbn; now rewrite app_assoc. Qed.

Lemma appendChild_appendChildren (e child : Element) :
  appendChild e child = appendChildren e [child].
Proof. destruct e; reflexivity. Qed.

(** A loop whose body only appends children appends, in order, what its
    iterations append. *)
Lemma for_from_appends (body : nat -> Element -> Element)
  (added : nat -> list Element) :
  (forall i e, body i e = appendChildren e (added i)) ->
  forall count i e,
    for_from i count body e = appendChildren e (flat_map added (seq i count)).
Proof.
  intros Hbody count.
  induction count as [|count IH]; intros i e; cbn [for_from seq flat_map].
  - now rewrite appendChildren_nil.
  - now rewrite IH, Hbody, appendChildren_app.
Qed.

Lemma flat_map_if_filter (A B : Type) (p : A -> bool) (f : A -> B) (l : list A) :
  flat_map (fun a => if p a then [f a] else []) l = map f (filter p l).
Proof.
  induction l as [|a l IH]; [reflexivity|].
  cbn [flat_map filter]. destruct (p a); cbn; now rewrite IH.
Qed.

Lemma filter_map_pair (A B : Type) (p : A * B -> bool) (a : A) (l : list B) :
  filter p (map (pair a) l) = map (pair a) (filter (fun b => p (a, b)) l).
Proof.
  induction l as [|b l IH]; [reflexivity|].
  cbn [map filter]. destruct (p (a, b)); cbn [map]; now rewrite IH.
Qed.

(** Rows of columns, flattened, are the cells in row-major order. *)
Lemma rows_of_columns (B : Type) (p : nat * nat -> bool) (f : nat * nat -> B)
  (rows cols : list nat) :
  flat_map (fun row => map (fun col => f (row, col))
                           (filter (fun col => p (row, col)) cols)) rows
  = map f (filter p (list_prod rows cols)).
Proof.
  induction rows as [|row rows IH]; [reflexivity|].
  cbn [flat_map list_prod].
  rewrite filter_app, map_app, IH, filter_map_pair, map_map.
  reflexivity.
Qed.

Section Rendered.

Variable number_toString : float -> jsstring.

Local Abbreviation render := (createQRCodeSVG number_toString).
Local Abbreviation rect := (moduleRect number_toString).

(** The two loops of [createQRCodeSVG] add the rectangle of each dark
    cell, in row-major order, after the background. *)
Lemma createQRCodeSVG_children (qr : QRCode) :
  children (render qr)
  = backgroundRect
      :: map (fun cell => rect qr (fst cell) (snd cell)) (darkCells qr).
Proof.
  unfold createQRCodeSVG, for_upto; cbv zeta.
  rewrite for_from_appends
    with (added := fun row =>
            map (fun col => rect qr row col)
                (filter (fun col => isDark qr row col)
                        (seq 0 (getModuleCount qr)))).
  - rewrite (rows_of_columns
               (fun cell => isDark qr (fst cell) (snd cell))
               (fun cell => rect qr (fst cell) (snd cell))).
    reflexivity.
  - intros row e.
    rewrite for_from_appends
      with (added := fun col =>
              if isDark qr row col then [rect qr row col] else []).
    + now rewrite flat_map_if_filter.
    + intros col e'. destruct (isDark qr row col).
      * apply appendChild_appendChildren.
      * now rewrite appendChildren_nil.
Qed.

Lemma darkCells_spec (qr : QRCode) (row col : nat) :
  In (row, col) (darkCells qr)
  <-> (row < getModuleCount qr)%nat /\ (col < getModuleCount qr)%nat
      /\ isDark qr row col = true.
Proof.
  unfold darkCells, cells. rewrite filter_In, in_prod_iff, !in_seq. cbn.
  intuition lia.
Qed.

(** C5: the symbol is drawn on a 200 by 200 canvas, a module being
    [200 / moduleCount] wide; after the background come the black
    rectangles, one for each dark cell of the grid and none besides, the
    one of cell [(row, col)] at [(col * moduleSize, row * moduleSize)]. *)
Theorem createQRCodeSVG_modules (qr : QRCode) (row col : nat)
  (Hrow : (row < getModuleCount qr)%nat) (Hcol : (col < getModuleCount qr)%nat) :
  let n := getModuleCount qr in
  let moduleSize := (200 / number_of_nat n)%float in
  let darks := tl (children (render qr)) in
  getAttribute "width" (render qr) = Some (number_toString 200%float)
  /\ getAttribute "height" (render qr) = Some (number_toString 200%float)
  /\ getAttribute "viewBox" (render qr)
     = Some (lit "0 0 " ++ number_toString 200%float ++ lit " "
               ++ number_toString 200%float)
  /\ hd_error (children (render qr)) = Some backgroundRect
  /\ rect qr row col
     = Elem "rect"
         [("x", number_toString (number_of_nat col * moduleSize)%float);
          ("y", number_toString (number_of_nat row * moduleSize)%float);
          ("width", number_toString moduleSize);
          ("height", number_toString moduleSize);
          ("fill", lit "#000000")] [] [] []
  /\ (isDark qr row col = true -> In (rect qr row col) darks)
  /\ (forall e, In e darks ->
        exists r c, (r < n)%nat /\ (c < n)%nat /\ isDark qr r c = true
                    /\ e = rect qr r c)
  /\ List.length darks = List.length (darkCells qr)
  /\ darks = map (fun cell => rect qr (fst cell) (snd cell)) (darkCells qr).
Proof.
  cbv zeta. rewrite createQRCodeSVG_children. cbn [tl hd_error].
  assert (Hattr : forall name,
            getAttribute name (render qr)
            = lookup name
                [("width", number_toString 200%float);
                 ("height", number_toString 200%float);
                 ("viewBox", lit "0 0 " ++ number_toString 200%float ++ lit " "
                               ++ number_toString 200%float)]).
  { intros name. unfold getAttribute, createQRCodeSVG, for_upto; cbv zeta.
    rewrite for_from_appends
      with (added := fun row =>
              map (fun col => rect qr row col)
                  (filter (fun col => isDark qr row col)
                          (seq 0 (getModuleCount qr)))).
    - reflexivity.
    - intros r e.
      rewrite for_from_appends
        with (added := fun c => if isDark qr r c then [rect qr r c] else []).
      + now rewrite flat_map_if_filter.
      + intros c e'. destruct (isDark qr r c).
        * apply appendChild_appendChildren.
        * now rewrite appendChildren_nil. }
  rewrite !Hattr.
  repeat apply conj; try reflexivity.
  - intros Hdark.
    apply (in_map (fun cell => rect qr (fst cell) (snd cell))
                  (darkCells qr) (row, col)).
    apply darkCells_spec. auto.
  - intros e Hin. apply in_map_iff in Hin as ([r c] & <- & Hcell).
    apply darkCells_spec in Hcell as (Hr & Hc & Hd).
    exists r, c. auto.
  - apply length_map.
Qed.

End Rendered.

(** A 2 by 2 checkerboard: module size 100, dark cells [(0, 0)] and
    [(1, 1)]. *)
Lemma createQRCodeSVG_modules_witness :
  In (moduleRect Sample.toString_small (Sample.checkerboard 2) 1 1)
     (tl (children (createQRCodeSVG Sample.toString_small (Sample.checkerboard 2))))
  /\ List.length
       (tl (children (createQRCodeSVG Sample.toString_small (Sample.checkerboard 2))))
     = 2%nat.
Proof.
  assert (H1 : (1 < getModuleCount (Sample.checkerboard 2))%nat) by (cbn; lia).
  destruct (@createQRCodeSVG_modules Sample.toString_small
              (Sample.checkerboard 2) 1 1 H1 H1)
    as (_ & _ & _ & _ & _ & Hin & _ & Hlen & _).
  split; [apply Hin; reflexivity|rewrite Hlen; reflexivity].
Defined.

Example createQRCodeSVG_checkerboard :
  map attributes
      (children (createQRCodeSVG Sample.toString_small (Sample.checkerboard 2)))
  = [ [("width", lit "100%"); ("height", lit "100%"); ("fill", lit "#ffffff")];
      [("x", lit "0"); ("y", lit "0"); ("width", lit "100");
       ("height", lit "100"); ("fill", lit "#000000")];
      [("x", lit "100"); ("y", lit "100"); ("width", lit "100");
       ("height", lit "100"); ("fill", lit "#000000")] ].
Proof. vm_compute. reflexivity. Qed.

End GeneratorProofs.

(* ------------------------------------------------------------------ *)
(** ** The scanner *)

Module ScannerProofs.

Import Scanner.

Lemma toggleButtons_follows (s : State) : buttons_follow_text (toggleButtons s).
Proof.
  unfold buttons_follow_text, toggleButtons; cbn.
  now rewrite truthy_length.
Qed.

Lemma clearResults_follows (s : State) : buttons_follow_text (clearResults s).
Proof. apply toggleButtons_follows. Qed.

Section Scanning.

Variable toDataURL : Image -> Crop -> jsstring.
Variable jsQR : list N -> float -> float -> Completion (option Code).

Local Abbreviation scan := (scanQRCode toDataURL jsQR).

(** After a successful decode the buttons follow the text. *)
Lemma scanQRCode_found_follows (img : Image) (s : State) (code : Code) :
  jsQR (pixels img) (width img) (height img) = Return (Some code) ->
  buttons_follow_text (scan img s).
Proof.
  intros Hfound. unfold scanQRCode. rewrite Hfound.
  apply toggleButtons_follows.
Qed.

(** X16: the two failure branches write the result field and leave the buttons
    as they were. *)
Lemma scanQRCode_failure_buttons (img : Image) (s : State) :
  (forall code, jsQR (pixels img) (width img) (height img) <> Return (Some code)) ->
  copyBtn_disabled (scan img s) = copyBtn_disabled s
  /\ clearBtn_disabled (scan img s) = clearBtn_disabled s.
Proof.
  intros Hnone. unfold scanQRCode.
  destruct (jsQR _ _ _) as [[code|]|e]; [now destruct (Hnone code)| |];
    split; reflexivity.
Qed.

(** C4: with no symbol found the result field is exactly
    [No QR code found]; when the decoder throws, the result field shows
    the message of the error: it reads [Error scanning QR code: ] followed
    by the message as a text area holds it, which for a message without
    carriage returns is the message itself; the preview area is hidden in
    both cases. *)
Theorem scanQRCode_no_result_or_exception (img : Image) (s : State) :
  (jsQR (pixels img) (width img) (height img) = Return None ->
   resultText_value (scan img s) = lit "No QR code found"
   /\ preview_hidden (scan img s) = true)
  /\ (forall e, jsQR (pixels img) (width img) (height img) = Throw e ->
      resultText_value (scan img s)
      = lit "Error scanning QR code: " ++ textarea_value (message e)
      /\ (exists label,
            resultText_value (scan img s) = label ++ textarea_value (message e))
      /\ (Forall (fun u => u <> 0x0D%N) (message e) ->
          exists label, resultText_value (scan img s) = label ++ message e)
      /\ preview_hidden (scan img s) = true).
Proof.
  split; [intros Hres|intros e Hres]; unfold scanQRCode; rewrite Hres.
  - split; [reflexivity|apply classList_contains_add].
  - cbn [resultText_value set_resultText_value set_previewArea_classList].
    assert (Hvalue : textarea_value (lit "Error scanning QR code: " ++ message e)
                     = lit "Error scanning QR code: " ++ textarea_value (message e))
      by (apply normalizeNewlines_app_clean; repeat constructor; discriminate).
    rewrite Hvalue.
    split; [reflexivity|]. split; [eexists; reflexivity|].
    split; [|apply classList_contains_add].
    intros Hclean. exists (lit "Error scanning QR code: ").
    unfold textarea_value. now rewrite normalizeNewlines_clean.
Qed.

(** C8: on a successful decode the preview is the rendering of the crop
    whose source rectangle starts 10 to the left of and above the
    top-left corner and spans the distance to the bottom-right corner
    plus 20, with no clamping: for a symbol that fills a 200 by 200
    picture up to 5 from its border, the rectangle starts at -5 and ends
    at 205. *)
Theorem scanQRCode_crop (img : Image) (s : State) (code : Code)
  (Hfound : jsQR (pixels img) (width img) (height img) = Return (Some code)) :
  let tl := topLeftCorner (location code) in
  let br := bottomRightCorner (location code) in
  let crop := cropOf (location code) in
  padding = 10%float
  /\ preview_src (scan img s) = toDataURL img crop
  /\ preview_hidden (scan img s) = false
  /\ sx crop = (x tl - 10)%float
  /\ sy crop = (y tl - 10)%float
  /\ sWidth crop = (x br - x tl + 20)%float
  /\ sHeight crop = (y br - y tl + 20)%float
  /\ (let edge := cropOf (Sample.box 5 5 195 195) in
      (sx edge <? 0)%float = true
      /\ (sy edge <? 0)%float = true
      /\ (width Sample.picture <? sx edge + sWidth edge)%float = true
      /\ (height Sample.picture <? sy edge + sHeight edge)%float = true).
Proof.
  cbv zeta. unfold scanQRCode. rewrite Hfound.
  repeat apply conj; try reflexivity.
  apply classList_contains_remove.
Qed.

End Scanning.

Lemma scanQRCode_no_result_or_exception_witness :
  resultText_value
    (scanQRCode Sample.dataURL Sample.jsQR_null Sample.picture Sample.scanned)
  = lit "No QR code found"
  /\ resultText_value
       (scanQRCode Sample.dataURL (Sample.jsQR_throws (lit "bad image"))
          Sample.picture Sample.scanned)
     = lit "Error scanning QR code: bad image".
Proof.
  split.
  - apply (scanQRCode_no_result_or_exception Sample.dataURL Sample.jsQR_null
             Sample.picture Sample.scanned).
    reflexivity.
  - rewrite (proj1 (proj2 (scanQRCode_no_result_or_exception Sample.dataURL
                             (Sample.jsQR_throws (lit "bad image"))
                             Sample.picture Sample.scanned)
                          {| message := lit "bad image" |} eq_refl)).
    reflexivity.
Defined.

(** The decoder throws an error whose message is [bad image]; the result
    field shows that message after the label, not on its own. *)
Lemma scanQRCode_exception_text_prefixed :
  let e := {| message := lit "bad image" |} in
  let s := scanQRCode Sample.dataURL (Sample.jsQR_throws (message e))
             Sample.picture Sample.scanned in
  resultText_value s <> message e
  /\ resultText_value s = lit "Error scanning QR code: bad image".
Proof. cbv zeta. split; [discriminate|reflexivity]. Qed.

Lemma scanQRCode_crop_witness :
  let code := {| data := lit "hello"; location := Sample.box 40 60 140 160 |} in
  let s := scanQRCode Sample.dataURL (Sample.jsQR_finds code)
             Sample.picture Sample.scanned in
  preview_src s = Sample.dataURL Sample.picture (cropOf (location code))
  /\ sx (cropOf (location code)) = 30%float
  /\ sWidth (cropOf (location code)) = 120%float.
Proof.
  cbv zeta.
  destruct (@scanQRCode_crop Sample.dataURL
              (Sample.jsQR_finds
                 {| data := lit "hello"; location := Sample.box 40 60 140 160 |})
              Sample.picture Sample.scanned
              {| data := lit "hello"; location := Sample.box 40 60 140 160 |}
              eq_refl)
    as (_ & Hsrc & _ & Hsx & _ & Hw & _).
  split; [exact Hsrc|split; [rewrite Hsx|rewrite Hw]; reflexivity].
Defined.

(** C3 at the input where it fails: the scanner is cleared, so both
    buttons are disabled; the next picture holds no symbol; the result
    field then reads [No QR code found] and the buttons are still
    disabled.  The same happens when the decoder throws. *)
Theorem scanQRCode_failure_leaves_buttons_stale :
  let cleared := clearResults Sample.scanned in
  let none := scanQRCode Sample.dataURL Sample.jsQR_null Sample.picture cleared in
  let thrown :=
    scanQRCode Sample.dataURL (Sample.jsQR_throws (lit "bad image"))
      Sample.picture cleared in
  buttons_follow_text cleared
  /\ resultText_value none = lit "No QR code found"
  /\ truthy (trim (resultText_value none)) = true
  /\ copyBtn_disabled none = true
  /\ clearBtn_disabled none = true
  /\ ~ buttons_follow_text none
  /\ truthy (trim (resultText_value thrown)) = true
  /\ copyBtn_disabled thrown = true
  /\ clearBtn_disabled thrown = true
  /\ ~ buttons_follow_text thrown.
Proof.
  cbv zeta.
  repeat apply conj; try reflexivity;
    intros [Hcopy _]; vm_compute in Hcopy; discriminate.
Qed.

(** C10: nothing in [displayQRCodeArea] looks at the sign of the computed
    size.  For a symbol turned upside down, whose bottom-right corner is
    left of and above its top-left corner, width and height are -80; for
    corners 20 apart the other way they are 0; either way they become the
    canvas size and the extent of the drawing, and the preview is shown. *)
Theorem displayQRCodeArea_unguarded (toDataURL : Image -> Crop -> jsstring)
  (img : Image) (s : State) (location : Location) :
  let turned := Sample.upsideDown in
  (x (bottomRightCorner turned) <? x (topLeftCorner turned))%float = true
  /\ qrWidth turned = (-80)%float
  /\ qrHeight turned = (-80)%float
  /\ (qrWidth turned <? 0)%float = true
  /\ qrWidth (Sample.box 120 120 100 100) = 0%float
  /\ preview_src (displayQRCodeArea toDataURL turned img s)
     = toDataURL img
         {| canvas_width := (-80)%float; canvas_height := (-80)%float;
            sx := 140%float; sy := 140%float;
            sWidth := (-80)%float; sHeight := (-80)%float;
            dx := 0%float; dy := 0%float;
            dWidth := (-80)%float; dHeight := (-80)%float |}
  /\ preview_src (displayQRCodeArea toDataURL location img s)
     = toDataURL img (cropOf location)
  /\ preview_hidden (displayQRCodeArea toDataURL location img s) = false
  /\ canvas_width (cropOf location) = qrWidth location
  /\ canvas_height (cropOf location) = qrHeight location
  /\ sWidth (cropOf location) = qrWidth location
  /\ sHeight (cropOf location) = qrHeight location
  /\ dWidth (cropOf location) = qrWidth location
  /\ dHeight (cropOf location) = qrHeight location.
Proof.
  cbv zeta.
  repeat apply conj; try reflexivity.
  apply classList_contains_remove.
Qed.

(** [clearResults] empties or hides everything and is idempotent. *)
Lemma clearResults_resets (s : State) :
  resultText_value (clearResults s) = []
  /\ preview_hidden (clearResults s) = true
  /\ preview_src (clearResults s) = []
  /\ fileInput_value (clearResults s) = []
  /\ copyBtn_disabled (clearResults s) = true
  /\ clearBtn_disabled (clearResults s) = true
  /\ clearResults (clearResults s) = clearResults s.
Proof.
  repeat apply conj; try reflexivity.
  - apply classList_contains_add.
  - unfold clearResults, toggleButtons; cbn.
    now rewrite classList_add_idempotent.
Qed.

End ScannerProofs.

(* ------------------------------------------------------------------ *)
(** ** Clearing *)

(** C9: clearing the generator empties the input text, the rendered
    symbol and the error message; clearing the scanner empties the result
    text, the preview source and the file picker, hides the preview and
    disables both buttons; clearing twice is clearing once. *)
Theorem clear_resets_idempotent (g : Generator.State) (s : Scanner.State) :
  (Generator.textInput_value (Generator.clearAll g) = []
   /\ Generator.qrCodeContainer (Generator.clearAll g) = []
   /\ Generator.errorContainer_textContent (Generator.clearAll g) = []
   /\ Generator.clearAll (Generator.clearAll g) = Generator.clearAll g)
  /\ (Scanner.resultText_value (Scanner.clearResults s) = []
      /\ Scanner.preview_hidden (Scanner.clearResults s) = true
      /\ Scanner.preview_src (Scanner.clearResults s) = []
      /\ Scanner.fileInput_value (Scanner.clearResults s) = []
      /\ Scanner.copyBtn_disabled (Scanner.clearResults s) = true
      /\ Scanner.clearBtn_disabled (Scanner.clearResults s) = true
      /\ Scanner.clearResults (Scanner.clearResults s) = Scanner.clearResults s).
Proof.
  split; [apply GeneratorProofs.clearAll_resets|apply ScannerProofs.clearResults_resets].
Qed.

Example clear_sample :
  Scanner.clearResults Sample.scanned
  = {| Scanner.resultText_value := [];
       Scanner.preview_src := [];
       Scanner.previewArea_classList := ["preview-area"; "hidden"];
       Scanner.fileInput_value := [];
       Scanner.copyBtn_disabled := true;
       Scanner.clearBtn_disabled := true |}.
Proof. reflexivity. Qed.

(* ------------------------------------------------------------------ *)
(** ** Strings: trimming, searching and UTF-8 *)

Module TextFacts.

(** No white space at the front. *)
Definition headClean (s : jsstring) : Prop :=
  match s with
  | [] => True
  | u :: _ => isWhiteSpace u = false
  end.

Lemma trimStart_headClean (s : jsstring) : headClean (trimStart s).
Proof.
  induction s as [|u s IH]; [exact I|].
  cbn [trimStart]. destruct (isWhiteSpace u) eqn:E; [exact IH|exact E].
Qed.

Lemma trimStart_clean (s : jsstring) : headClean s -> trimStart s = s.
Proof. destruct s as [|u s]; [reflexivity|]. cbn. now intros ->. Qed.

Lemma trimStart_snoc (s : jsstring) (u : N) :
  isWhiteSpace u = false -> trimStart (s ++ [u]) = trimStart s ++ [u].
Proof.
  intros Hu. induction s as [|a s IH]; cbn [app trimStart].
  - now rewrite Hu.
  - now destruct (isWhiteSpace a).
Qed.

(** Trimming the end keeps a clean front. *)
Lemma trimEnd_headClean (s : jsstring) : headClean s -> headClean (trimEnd s).
Proof.
  unfold trimEnd. destruct s as [|u s]; [intros _; exact I|].
  cbn [headClean rev]. intros Hu.
  rewrite trimStart_snoc by exact Hu.
  rewrite rev_app_distr. exact Hu.
Qed.

Lemma trim_headClean (s : jsstring) : headClean (trim s).
Proof. apply trimEnd_headClean, trimStart_headClean. Qed.

Lemma trim_lastClean (s : jsstring) : headClean (rev (trim s)).
Proof.
  unfold trim, trimEnd. rewrite rev_involutive. apply trimStart_headClean.
Qed.

Lemma trim_idempotent (s : jsstring) : trim (trim s) = trim s.
Proof.
  unfold trim at 1. rewrite (@trimStart_clean (trim s))
    by apply trim_headClean.
  unfold trimEnd. rewrite (@trimStart_clean (rev (trim s)))
    by apply trim_lastClean.
  apply rev_involutive.
Qed.

Lemma Forall_trimStart (P : N -> Prop) (s : jsstring) :
  Forall P s -> Forall P (trimStart s).
Proof.
  induction 1 as [|u s Hu Hs IH]; [constructor|].
  cbn [trimStart]. destruct (isWhiteSpace u); [exact IH|now constructor].
Qed.

Lemma Forall_trim (P : N -> Prop) (s : jsstring) :
  Forall P s -> Forall P (trim s).
Proof.
  intros H. unfold trim, trimEnd.
  apply Forall_rev, Forall_trimStart, Forall_rev, Forall_trimStart, H.
Qed.

Lemma startsWith_spec (pattern s : jsstring) :
  startsWith pattern s = true <-> exists post, s = pattern ++ post.
Proof.
  revert s. induction pattern as [|p pattern IH]; intros s.
  - cbn. split; [intros _; now exists s|reflexivity].
  - destruct s as [|u s]; cbn [startsWith].
    + split; [discriminate|intros [post H]; discriminate].
    + rewrite andb_true_iff, N.eqb_eq, IH. split.
      * intros [-> [post ->]]. now exists post.
      * intros [post H]. injection H as -> ->. split; [reflexivity|now exists post].
Qed.

Lemma includes_spec (pattern s : jsstring) :
  includes pattern s = true <-> exists pre post, s = pre ++ pattern ++ post.
Proof.
  induction s as [|u s IH].
  - cbn [includes]. rewrite orb_false_r, startsWith_spec. split.
    + intros [post H]. now exists [], post.
    + intros [pre [post H]]. destruct pre; [now exists post|discriminate].
  - cbn [includes]. rewrite orb_true_iff, startsWith_spec, IH. split.
    + intros [[post H]|[pre [post H]]].
      * now exists [], post.
      * exists (u :: pre), post. now rewrite H.
    + intros [pre [post H]]. destruct pre as [|a pre].
      * left. now exists post.
      * right. injection H as _ H. now exists pre, post.
Qed.

(** Induction in steps of one and two code units, as [TextEncoder_encode]
    recurses. *)
Lemma units_ind (P : jsstring -> Prop) :
  P [] -> (forall u, P [u]) ->
  (forall u v r, P r -> P (v :: r) -> P (u :: v :: r)) ->
  forall s, P s.
Proof.
  intros Hnil Hone Htwo s.
  enough (P s /\ forall u, P (u :: s)) by tauto.
  induction s as [|v r [IHr IHvr]]; split; auto.
Qed.

Local Open Scope N_scope.

Lemma utf8_of_codepoint_length (c : N) :
  (1 <= List.length (utf8_of_codepoint c) <= 4)%nat
  /\ (c < 0x10000 -> (List.length (utf8_of_codepoint c) <= 3)%nat)
  /\ (0x10000 <= c -> List.length (utf8_of_codepoint c) = 4%nat).
Proof.
  unfold utf8_of_codepoint.
  destruct (N.ltb_spec c 0x80); [cbn; lia|].
  destruct (N.ltb_spec c 0x800); [cbn; lia|].
  destruct (N.ltb_spec c 0x10000); cbn; lia.
Qed.

(** UTF-8 takes at least one byte for a code unit and, in a string of
    16-bit units, at most three. *)
Lemma TextEncoder_encode_length (s : jsstring) :
  (List.length s <= List.length (TextEncoder_encode s))%nat
  /\ (Forall (fun u => u < 0x10000) s ->
      (List.length (TextEncoder_encode s) <= 3 * List.length s)%nat).
Proof.
  induction s as [|u|u v r [IHr1 IHr2] [IHv1 IHv2]] using units_ind.
  - cbn. split; [lia|intros _; lia].
  - cbn [TextEncoder_encode].
    pose proof (utf8_of_codepoint_length u) as (Hu & Hu3 & _).
    pose proof (utf8_of_codepoint_length 0xFFFD) as (Hf & Hf3 & _).
    specialize (Hf3 eq_refl).
    destruct (isHighSurrogate u); [|destruct (isLowSurrogate u)];
      rewrite ?length_app; cbn [List.length TextEncoder_encode];
      (split; [lia|intros Hall; inversion Hall; subst; try lia]).
  - pose proof (utf8_of_codepoint_length u) as (Hu & Hu3 & _).
    pose proof (utf8_of_codepoint_length 0xFFFD) as (Hf & Hf3 & _).
    specialize (Hf3 eq_refl).
    pose proof (utf8_of_codepoint_length
                  (0x10000 + (u - 0xD800) * 1024 + (v - 0xDC00))) as (_ & _ & Hp).
    specialize (Hp ltac:(lia)).
    assert (Hstep : forall bytes,
              (1 <= List.length bytes)%nat ->
              (List.length (u :: v :: r)
               <= List.length (bytes ++ TextEncoder_encode (v :: r)))%nat)
      by (intros bytes Hb; rewrite length_app; cbn [List.length] in *; lia).
    assert (Hstep3 : forall bytes,
              (List.length bytes <= 3)%nat ->
              Forall (fun u => u < 0x10000) (u :: v :: r) ->
              (List.length (bytes ++ TextEncoder_encode (v :: r))
               <= 3 * List.length (u :: v :: r))%nat).
    { intros bytes Hb Hall. inversion Hall as [|? ? _ Hvr]; subst.
      specialize (IHv2 Hvr). rewrite length_app; cbn [List.length] in *; lia. }
    change (TextEncoder_encode (u :: v :: r))
      with (if isHighSurrogate u then
              if isLowSurrogate v then
                utf8_of_codepoint (0x10000 + (u - 0xD800) * 1024 + (v - 0xDC00))
                  ++ TextEncoder_encode r
              else utf8_of_codepoint 0xFFFD ++ TextEncoder_encode (v :: r)
            else if isLowSurrogate u then
              utf8_of_codepoint 0xFFFD ++ TextEncoder_encode (v :: r)
            else utf8_of_codepoint u ++ TextEncoder_encode (v :: r)).
    destruct (isHighSurrogate u); [destruct (isLowSurrogate v)|
      destruct (isLowSurrogate u)].
    + split.
      * rewrite length_app, Hp. cbn [List.length]. lia.
      * intros Hall. inversion Hall as [|? ? _ Hvr]; subst.
        inversion Hvr as [|? ? _ Hr]; subst. specialize (IHr2 Hr).
        rewrite length_app, Hp. cbn [List.length]. lia.
    + split; [apply Hstep; lia|apply Hstep3; lia].
    + split; [apply Hstep; lia|apply Hstep3; lia].
    + split; [apply Hstep; lia|].
      intros Hall. apply Hstep3; [|exact Hall].
      inversion Hall; subst. apply Hu3. assumption.
Qed.

(** ASCII text is its own UTF-8. *)
Lemma TextEncoder_encode_ascii (s : jsstring) :
  Forall (fun u => u < 0x80) s -> TextEncoder_encode s = s.
Proof.
  induction 1 as [|u s Hu Hs IH]; [reflexivity|].
  cbn [TextEncoder_encode].
  assert (Hh : isHighSurrogate u = false)
    by (unfold isHighSurrogate; apply andb_false_iff; left; apply N.leb_gt; lia).
  assert (Hl : isLowSurrogate u = false)
    by (unfold isLowSurrogate; apply andb_false_iff; left; apply N.leb_gt; lia).
  rewrite Hh, Hl, IH. unfold utf8_of_codepoint.
  destruct (N.ltb_spec u 0x80); [reflexivity|lia].
Qed.

(** A high surrogate at the very end has no partner and becomes U+FFFD,
    whatever precedes it. *)
Lemma TextEncoder_encode_lone_high (s : jsstring) (h : N) :
  isHighSurrogate h = true ->
  TextEncoder_encode (s ++ [h]) = TextEncoder_encode s ++ [0xEF; 0xBF; 0xBD].
Proof.
  intros Hh.
  assert (Hnl : isLowSurrogate h = false).
  { unfold isHighSurrogate, isLowSurrogate in *.
    apply andb_true_iff in Hh as [_ Hh]. apply N.leb_le in Hh.
    apply andb_false_iff; left; apply N.leb_gt; lia. }
  induction s as [|u|u v r IHr IHv] using units_ind.
  - cbn. now rewrite Hh.
  - cbn [app TextEncoder_encode]. rewrite Hh, Hnl.
    destruct (isHighSurrogate u); [reflexivity|].
    destruct (isLowSurrogate u); cbn [TextEncoder_encode];
      now rewrite app_nil_r.
  - change ((u :: v :: r) ++ [h]) with (u :: v :: (r ++ [h])).
    change (TextEncoder_encode (u :: v :: (r ++ [h])))
      with (if isHighSurrogate u then
              if isLowSurrogate v then
                utf8_of_codepoint (0x10000 + (u - 0xD800) * 1024 + (v - 0xDC00))
                  ++ TextEncoder_encode (r ++ [h])
              else utf8_of_codepoint 0xFFFD ++ TextEncoder_encode ((v :: r) ++ [h])
            else if isLowSurrogate u then
              utf8_of_codepoint 0xFFFD ++ TextEncoder_encode ((v :: r) ++ [h])
            else utf8_of_codepoint u ++ TextEncoder_encode ((v :: r) ++ [h])).
    change (TextEncoder_encode (u :: v :: r))
      with (if isHighSurrogate u then
              if isLowSurrogate v then
                utf8_of_codepoint (0x10000 + (u - 0xD800) * 1024 + (v - 0xDC00))
                  ++ TextEncoder_encode r
              else utf8_of_codepoint 0xFFFD ++ TextEncoder_encode (v :: r)
            else if isLowSurrogate u then
              utf8_of_codepoint 0xFFFD ++ TextEncoder_encode (v :: r)
            else utf8_of_codepoint u ++ TextEncoder_encode (v :: r)).
    rewrite IHr, IHv.
    destruct (isHighSurrogate u); [destruct (isLowSurrogate v)|
      destruct (isLowSurrogate u)]; now rewrite app_assoc.
Qed.

Local Close Scope N_scope.

(** [substring(0, n)] of a string longer than [n] is its first [n]
    units, none for a negative [n]. *)
Lemma substring_prefix (s : jsstring) (n : Z) :
  (n < JS.length s)%Z -> substring s 0 n = firstn (Z.to_nat n) s.
Proof.
  intros Hn. unfold substring. pose proof (length_nonneg s) as Hlen.
  rewrite (Z.max_l 0 0), (Z.min_l 0 (JS.length s)) by lia.
  rewrite (Z.min_l (Z.max n 0)) by lia.
  rewrite (Z.max_r 0 (Z.max n 0)), (Z.min_l 0 (Z.max n 0)) by lia.
  cbn [Z.to_nat skipn]. f_equal. lia.
Qed.

(** Reading a text back from a [textarea] never makes it longer. *)
Lemma normalizeNewlines_length (s : jsstring) :
  (JS.length (normalizeNewlines s) <= JS.length s)%Z.
Proof.
  unfold JS.length.
  enough (List.length (normalizeNewlines s) <= List.length s)%nat by lia.
  induction s as [|u|u v r IHr IHv] using units_ind.
  - cbn. lia.
  - cbn. destruct (u =? 0x0D)%N; cbn; lia.
  - change (normalizeNewlines (u :: v :: r))
      with (if (u =? 0x0D)%N then
              0x0A%N :: (if (v =? 0x0A)%N then normalizeNewlines r
                         else normalizeNewlines (v :: r))
            else u :: normalizeNewlines (v :: r)).
    destruct (u =? 0x0D)%N; [destruct (v =? 0x0A)%N|];
      cbn [List.length] in *; lia.
Qed.

(** A code unit that is neither CR nor LF stays where it is at the end. *)
Lemma normalizeNewlines_snoc (s : jsstring) (h : N) :
  h <> 0x0D%N -> h <> 0x0A%N ->
  normalizeNewlines (s ++ [h]) = normalizeNewlines s ++ [h].
Proof.
  intros Hcr Hlf.
  assert (Hh : normalizeNewlines [h] = [h])
    by (cbn; destruct (N.eqb_spec h 0x0D); [contradiction|reflexivity]).
  induction s as [|u|u v r IHr IHv] using units_ind.
  - exact Hh.
  - cbn [app].
    change (normalizeNewlines [u; h])
      with (if (u =? 0x0D)%N then
              0x0A%N :: (if (h =? 0x0A)%N then normalizeNewlines []
                         else normalizeNewlines [h])
            else u :: normalizeNewlines [h]).
    rewrite Hh. destruct (N.eqb_spec h 0x0A); [contradiction|].
    cbn. destruct (u =? 0x0D)%N; reflexivity.
  - change ((u :: v :: r) ++ [h]) with (u :: v :: (r ++ [h])).
    change (normalizeNewlines (u :: v :: (r ++ [h])))
      with (if (u =? 0x0D)%N then
              0x0A%N :: (if (v =? 0x0A)%N then normalizeNewlines (r ++ [h])
                         else normalizeNewlines ((v :: r) ++ [h]))
            else u :: normalizeNewlines ((v :: r) ++ [h])).
    change (normalizeNewlines (u :: v :: r))
      with (if (u =? 0x0D)%N then
              0x0A%N :: (if (v =? 0x0A)%N then normalizeNewlines r
                         else normalizeNewlines (v :: r))
            else u :: normalizeNewlines (v :: r)).
    rewrite IHr, IHv.
    destruct (u =? 0x0D)%N; [destruct (v =? 0x0A)%N|]; reflexivity.
Qed.

Lemma Forall_firstn_keeps (P : N -> Prop) (n : nat) (s : jsstring) :
  Forall P s -> Forall P (firstn n s).
Proof.
  intros H. rewrite <- (firstn_skipn n s) in H.
  now apply Forall_app in H.
Qed.

End TextFacts.

(* ------------------------------------------------------------------ *)
(** ** The generator: what reaches the encoder *)

Module GeneratorInputProofs.

Import Generator GeneratorInput TextFacts.

Local Open Scope Z_scope.

Lemma level_monotone (A B : Type) (short : list A) (long : list B) :
  JS.length short <= JS.length long ->
  recovery_percent (getOptimalErrorCorrection long)
  <= recovery_percent (getOptimalErrorCorrection short).
Proof.
  unfold getOptimalErrorCorrection. intros Hle.
  repeat match goal with
         | |- context [?a >? ?b] => destruct (Z.gtb_spec a b)
         end; cbn [recovery_percent]; lia.
Qed.

Section Requests.

Variable number_toString : float -> jsstring.
Variable qrcode : ErrorCorrectionLevel -> list N -> Completion QRCode.

Local Abbreviation generate := (generateQRCode number_toString qrcode).

(** X1: white space around the text does not matter: generating from the
    trimmed text gives the same symbol, messages and encoder request, and
    the text that is encoded neither begins nor ends with white space. *)
Theorem generateQRCode_surrounding_space (g : State) :
  let t := trim (textInput_value g) in
  generate (set_textInput_value t g) = set_textInput_value t (generate g)
  /\ headClean t
  /\ headClean (rev t).
Proof.
  cbv zeta. split; [|split; [apply trim_headClean|apply trim_lastClean]].
  unfold generateQRCode.
  cbn [textInput_value set_textInput_value maxLength].
  rewrite trim_idempotent.
  destruct (negb (truthy (trim (textInput_value g)))); [reflexivity|].
  destruct (JS.length (trim (textInput_value g)) >? maxLength g);
    [reflexivity|].
  cbv zeta. cbn [encoder_calls set_qrCodeContainer
                 set_errorContainer_textContent set_encoder_calls].
  destruct (qrcode _ _); reflexivity.
Qed.

Lemma generateQRCode_request (g : State) :
  0 < JS.length (trim (textInput_value g)) <= maxLength g ->
  encoder_calls (generate g)
  = encoder_calls g
      ++ [(getOptimalErrorCorrection
             (TextEncoder_encode (trim (textInput_value g))),
           TextEncoder_encode (trim (textInput_value g)))].
Proof.
  intros Hok.
  rewrite (GeneratorProofs.generateQRCode_valid number_toString qrcode g Hok).
  destruct (qrcode _ _); reflexivity.
Qed.

(** X2: an accepted text of 16-bit code units reaches the encoder as at
    least as many bytes as it has units and at most three times as many,
    so as at most three times the maximum; the level is chosen from the
    bytes and is never more robust than the count of characters would
    give. *)
Theorem generateQRCode_request_size (g : State)
  (Hok : 0 < JS.length (trim (textInput_value g)) <= maxLength g)
  (Hunits : Forall (fun u => (u < 0x10000)%N) (textInput_value g)) :
  let t := trim (textInput_value g) in
  let bytes := TextEncoder_encode t in
  encoder_calls (generate g)
  = encoder_calls g ++ [(getOptimalErrorCorrection bytes, bytes)]
  /\ JS.length t <= JS.length bytes <= 3 * JS.length t
  /\ JS.length bytes <= 3 * maxLength g
  /\ recovery_percent (getOptimalErrorCorrection bytes)
     <= recovery_percent (getOptimalErrorCorrection t).
Proof.
  cbv zeta.
  pose proof (TextEncoder_encode_length (trim (textInput_value g)))
    as [Hlow Hhigh].
  specialize (Hhigh (Forall_trim Hunits)).
  assert (Hb : JS.length (trim (textInput_value g))
               <= JS.length (TextEncoder_encode (trim (textInput_value g)))
               <= 3 * JS.length (trim (textInput_value g)))
    by (unfold JS.length; lia).
  split; [apply generateQRCode_request, Hok|].
  split; [exact Hb|]. split; [lia|]. apply level_monotone. lia.
Qed.

(** X3: for ASCII text the encoder receives the character codes themselves,
    and the level is that of the number of characters. *)
Theorem generateQRCode_ascii (g : State)
  (Hok : 0 < JS.length (trim (textInput_value g)) <= maxLength g)
  (Hascii : Forall (fun u => (u < 0x80)%N) (textInput_value g)) :
  let t := trim (textInput_value g) in
  encoder_calls (generate g)
  = encoder_calls g ++ [(getOptimalErrorCorrection t, t)].
Proof.
  cbv zeta. rewrite (generateQRCode_request g Hok).
  now rewrite (TextEncoder_encode_ascii (Forall_trim Hascii)).
Qed.

Lemma generateQRCode_keeps_input (g : State) :
  textInput_value (generate g) = textInput_value g
  /\ maxLength (generate g) = maxLength g.
Proof.
  unfold generateQRCode.
  destruct (negb (truthy (trim (textInput_value g)))); [split; reflexivity|].
  destruct (JS.length (trim (textInput_value g)) >? maxLength g);
    [split; reflexivity|].
  cbv zeta. destruct (qrcode _ _); split; reflexivity.
Qed.

(** X4: generating never stacks symbols up: the container ends with at most
    the symbol and its information line, whatever it held before, and
    generating again from the same text leaves the same content. *)
Theorem generateQRCode_replaces (g : State) :
  (0 < JS.length (trim (textInput_value g)) <= maxLength g ->
   (List.length (qrCodeContainer (generate g)) <= 2)%nat
   /\ forall g', textInput_value g' = textInput_value g ->
                 maxLength g' = maxLength g ->
                 qrCodeContainer (generate g') = qrCodeContainer (generate g))
  /\ qrCodeContainer (generate (generate g)) = qrCodeContainer (generate g).
Proof.
  assert (Hvalid : forall a b,
            0 < JS.length (trim (textInput_value a)) <= maxLength a ->
            textInput_value b = textInput_value a -> maxLength b = maxLength a ->
            qrCodeContainer (generate b) = qrCodeContainer (generate a)).
  { intros a b Hok Ht Hm.
    assert (Hokb : 0 < JS.length (trim (textInput_value b)) <= maxLength b)
      by (rewrite Ht, Hm; exact Hok).
    rewrite (GeneratorProofs.generateQRCode_valid number_toString qrcode a Hok),
            (GeneratorProofs.generateQRCode_valid number_toString qrcode b Hokb).
    rewrite Ht. destruct (qrcode _ _); reflexivity. }
  split.
  - intros Hok. split; [|intros g' Ht Hm; now apply Hvalid].
    rewrite (GeneratorProofs.generateQRCode_valid number_toString qrcode g Hok).
    destruct (qrcode _ _); cbn; lia.
  - destruct (generateQRCode_keeps_input g) as [Ht Hm].
    destruct (Z_lt_le_dec 0 (JS.length (trim (textInput_value g)))) as [Hpos|Hz];
      [destruct (Z_le_gt_dec (JS.length (trim (textInput_value g))) (maxLength g))
         as [Hle|Hgt]|].
    + apply Hvalid; [split|..]; assumption.
    + rewrite (GeneratorProofs.generateQRCode_tooLong number_toString qrcode
                 (generate g)) by (rewrite ?Ht, ?Hm; lia).
      reflexivity.
    + rewrite (GeneratorProofs.generateQRCode_empty number_toString qrcode
                 (generate g))
        by (rewrite Ht; pose proof (length_nonneg (trim (textInput_value g))); lia).
      reflexivity.
Qed.

End Requests.

Lemma generateQRCode_request_size_witness :
  let g := Sample.typed (repeat 0xE9%N 60) in
  JS.length (trim (textInput_value g)) = 60
  /\ JS.length (TextEncoder_encode (trim (textInput_value g))) <= 3 * 60
  /\ recovery_percent
       (getOptimalErrorCorrection (TextEncoder_encode (trim (textInput_value g))))
     <= recovery_percent (getOptimalErrorCorrection (trim (textInput_value g))).
Proof.
  cbv zeta.
  assert (Hok : 0 < JS.length (trim (textInput_value (Sample.typed (repeat 0xE9%N 60))))
                <= maxLength (Sample.typed (repeat 0xE9%N 60)))
    by (vm_compute; split; [reflexivity|discriminate]).
  assert (Hunits : Forall (fun u => (u < 0x10000)%N)
                     (textInput_value (Sample.typed (repeat 0xE9%N 60))))
    by (apply Forall_forall; intros u Hu; apply repeat_spec in Hu; subst;
        reflexivity).
  destruct (@generateQRCode_request_size Sample.toString_small
              (Sample.qrcode_upto 200 2) _ Hok Hunits)
    as (_ & [_ Hhigh] & _ & Hlevel).
  split; [reflexivity|]. split; [|exact Hlevel].
  replace (3 * 60) with
    (3 * JS.length (trim (textInput_value (Sample.typed (repeat 0xE9%N 60)))))
    by reflexivity.
  exact Hhigh.
Defined.

Lemma generateQRCode_ascii_witness :
  encoder_calls
    (generateQRCode Sample.toString_small (Sample.qrcode_upto 200 2)
       (Sample.typed (lit " hi there ")))
  = [(H, lit "hi there")].
Proof.
  assert (Hok : 0 < JS.length (trim (textInput_value (Sample.typed (lit " hi there "))))
                <= maxLength (Sample.typed (lit " hi there ")))
    by (vm_compute; split; [reflexivity|discriminate]).
  assert (Hascii : Forall (fun u => (u < 0x80)%N)
                     (textInput_value (Sample.typed (lit " hi there "))))
    by (repeat constructor).
  exact (@generateQRCode_ascii Sample.toString_small (Sample.qrcode_upto 200 2)
           _ Hok Hascii).
Defined.

Lemma generateQRCode_replaces_witness :
  (List.length
     (qrCodeContainer
        (generateQRCode Sample.toString_small (Sample.qrcode_upto 10 2)
           Sample.rendered)) <= 2)%nat.
Proof.
  assert (Hok : 0 < JS.length (trim (textInput_value Sample.rendered))
                <= maxLength Sample.rendered)
    by (vm_compute; split; [reflexivity|discriminate]).
  exact (proj1 (proj1 (generateQRCode_replaces Sample.toString_small
                         (Sample.qrcode_upto 10 2) Sample.rendered) Hok)).
Defined.

(* ------------------------------------------------------------------ *)
(** ** The generator: the length warning and pasting *)

Lemma agreesFrom_spec (m : Z) (count : nat) (start len : Z) :
  agreesFrom m count start = true ->
  start <= len < start + Z.of_nat count ->
  overEightyPercent m len = (4 * m <? 5 * len).
Proof.
  revert start. induction count as [|count IH]; intros start Hall Hlen; [lia|].
  cbn [agreesFrom] in Hall. apply andb_true_iff in Hall as [Hhere Hrest].
  destruct (Z.eq_dec len start) as [->|Hne].
  - now apply Bool.eqb_prop in Hhere.
  - apply (IH (start + 1)); [exact Hrest|lia].
Qed.

Lemma agreesUpTo_spec (count : nat) (start m : Z) :
  agreesUpTo count start = true ->
  0 <= start <= m -> m < start + Z.of_nat count ->
  agreesFrom m (S (Z.to_nat m)) 0 = true.
Proof.
  revert start. induction count as [|count IH]; intros start Hall Hlo Hhi; [lia|].
  cbn [agreesUpTo] in Hall. apply andb_true_iff in Hall as [Hhere Hrest].
  destruct (Z.eq_dec m start) as [->|Hne]; [exact Hhere|].
  apply (IH (start + 1)); [exact Hrest|lia|lia].
Qed.

(** The comparison [length > maxLength * 0.8], made in floating point,
    agrees with the exact [5 * length > 4 * maxLength] for every maximum
    up to 2000 and every length up to the maximum. *)
Lemma overEightyPercent_table : agreesUpTo 2001 0 = true.
Proof. vm_compute. reflexivity. Qed.

Lemma overEightyPercent_exact (m len : Z) :
  0 <= len <= m -> m <= 2000 ->
  overEightyPercent m len = (4 * m <? 5 * len).
Proof.
  intros Hlen Hm.
  apply agreesFrom_spec with (count := S (Z.to_nat m)) (start := 0); [|lia].
  apply agreesUpTo_spec with (count := 2001%nat) (start := 0);
    [exact overEightyPercent_table|lia|lia].
Qed.

(** X5: for a maximum up to 2000 and a text within it, [validateInputLength]
    shows the warning, with the number of characters left, exactly when
    the text is longer than four fifths of the maximum, and empties the
    error container otherwise. *)
Theorem validateInputLength_threshold (g : State)
  (Hmax : maxLength g <= 2000)
  (Hlen : JS.length (textInput_value g) <= maxLength g) :
  let len := JS.length (textInput_value g) in
  errorContainer_textContent (validateInputLength g)
  = if 4 * maxLength g <? 5 * len
    then warningMessage (maxLength g - len)
    else [].
Proof.
  cbv zeta. unfold validateInputLength.
  rewrite overEightyPercent_exact
    by (pose proof (length_nonneg (textInput_value g)); lia).
  destruct (4 * maxLength g <? 5 * JS.length (textInput_value g)); reflexivity.
Qed.

Lemma validateInputLength_threshold_witness :
  errorContainer_textContent
    (validateInputLength (Sample.typed (repeat 0x61%N 801)))
  = lit "Warning: 199 characters remaining. Very long text may not fit in QR code."
  /\ errorContainer_textContent
       (validateInputLength (Sample.typed (repeat 0x61%N 800))) = [].
Proof.
  split.
  - rewrite (@validateInputLength_threshold (Sample.typed (repeat 0x61%N 801)))
      by (vm_compute; discriminate).
    vm_compute. reflexivity.
  - rewrite (@validateInputLength_threshold (Sample.typed (repeat 0x61%N 800)))
      by (vm_compute; discriminate).
    vm_compute. reflexivity.
Defined.

(** X6: the error container is shared by [showError] and the length check.
    A keystroke that leaves the text short empties it at once, whatever
    message it held; and the warning of a long text is emptied by the
    timeout of an earlier [showError], although the text is as long as
    before. *)
Theorem input_and_showError_share_container (g : State)
  (message value : jsstring) (d : N) (Hd : (errorDelay <= d)%N) :
  let typed := input value (showError message g) in
  textInput_value (advance d typed) = value
  /\ (overEightyPercent (maxLength g) (JS.length value) = false ->
      errorContainer_textContent typed = [])
  /\ (overEightyPercent (maxLength g) (JS.length value) = true ->
      errorContainer_textContent typed
      = warningMessage (maxLength g - JS.length value)
      /\ errorContainer_textContent (advance d typed) = []).
Proof.
  cbv zeta.
  assert (Hin : In (now g + errorDelay)%N
                   (timeouts (input value (showError message g)))).
  { unfold input, validateInputLength.
    cbn [textInput_value set_textInput_value maxLength showError
         setTimeout_clearError set_timeouts set_errorContainer_textContent].
    destruct (overEightyPercent _ _); cbn; apply in_or_app; right; now left. }
  assert (Hnow : now (input value (showError message g)) = now g).
  { unfold input, validateInputLength.
    cbn [textInput_value set_textInput_value maxLength showError
         setTimeout_clearError set_timeouts set_errorContainer_textContent].
    destruct (overEightyPercent _ _); reflexivity. }
  split; [|split].
  - unfold advance; cbv zeta.
    match goal with |- context [existsb ?f ?l] => destruct (existsb f l) end;
      unfold input, validateInputLength;
      cbn [textInput_value set_textInput_value maxLength showError
           setTimeout_clearError set_timeouts set_errorContainer_textContent
           set_now];
      destruct (overEightyPercent _ _); reflexivity.
  - intros Hshort. unfold input, validateInputLength.
    cbn [textInput_value set_textInput_value maxLength showError
         setTimeout_clearError set_timeouts set_errorContainer_textContent].
    now rewrite Hshort.
  - intros Hlong. split.
    + unfold input, validateInputLength.
      cbn [textInput_value set_textInput_value maxLength showError
           setTimeout_clearError set_timeouts set_errorContainer_textContent].
      now rewrite Hlong.
    + apply GeneratorProofs.advance_due with (due := (now g + errorDelay)%N);
        [exact Hin|rewrite Hnow; lia].
Qed.

Lemma input_and_showError_share_container_witness :
  let typed :=
    input (repeat 0x61%N 900) (showError emptyTextMessage Sample.freshGenerator) in
  errorContainer_textContent typed
  = lit "Warning: 100 characters remaining. Very long text may not fit in QR code."
  /\ errorContainer_textContent (advance 5000 typed) = [].
Proof.
  cbv zeta.
  assert (Hd : (errorDelay <= 5000)%N) by (vm_compute; discriminate).
  destruct (@input_and_showError_share_container Sample.freshGenerator
              emptyTextMessage (repeat 0x61%N 900) 5000%N Hd)
    as (_ & _ & Hlong).
  destruct (Hlong ltac:(vm_compute; reflexivity)) as [Hwarn Hgone].
  split; [rewrite Hwarn; vm_compute; reflexivity|exact Hgone].
Defined.

Lemma firstn_length_Z (s : jsstring) (n : Z) :
  0 <= n <= JS.length s -> JS.length (firstn (Z.to_nat n) s) = n.
Proof.
  intros Hn. unfold JS.length in *. rewrite length_firstn. lia.
Qed.

Lemma pasteText_truncates (g : State) (text : jsstring) :
  maxLength g < JS.length text ->
  pasteText (Return text) g
  = validateInputLength
      (set_textInput_value
         (textarea_value (firstn (Z.to_nat (maxLength g)) text))
         (showError (pasteTooLongMessage (maxLength g)) g)).
Proof.
  intros Hlong. unfold pasteText.
  destruct (Z.gtb_spec (JS.length text) (maxLength g)); [|lia].
  cbv zeta.
  change (maxLength (showError (pasteTooLongMessage (maxLength g)) g))
    with (maxLength g).
  now rewrite substring_prefix.
Qed.

Lemma pasteText_fits (g : State) (text : jsstring) :
  JS.length text <= maxLength g ->
  pasteText (Return text) g
  = validateInputLength (set_textInput_value (textarea_value text) g).
Proof.
  intros Hfits. unfold pasteText.
  destruct (Z.gtb_spec (JS.length text) (maxLength g)); [lia|reflexivity].
Qed.

Lemma validateInputLength_message (g : State) :
  (exists remaining,
     errorContainer_textContent (validateInputLength g) = warningMessage remaining)
  \/ errorContainer_textContent (validateInputLength g) = [].
Proof.
  unfold validateInputLength. destruct (overEightyPercent _ _); cbn; eauto.
Qed.

Lemma validateInputLength_keeps (g : State) :
  textInput_value (validateInputLength g) = textInput_value g
  /\ timeouts (validateInputLength g) = timeouts g
  /\ now (validateInputLength g) = now g.
Proof.
  unfold validateInputLength. destruct (overEightyPercent _ _); repeat split.
Qed.

(** The text a paste keeps: the clipboard text, or its first [maxLength]
    code units when it is longer. *)
Definition kept (g : State) (text : jsstring) : jsstring :=
  if JS.length text >? maxLength g
  then firstn (Z.to_nat (maxLength g)) text
  else text.

Lemma pasteText_value (g : State) (text : jsstring) :
  textInput_value (pasteText (Return text) g) = textarea_value (kept g text).
Proof.
  unfold kept.
  destruct (Z.gtb_spec (JS.length text) (maxLength g)) as [Hlong|Hfits].
  - rewrite pasteText_truncates by exact Hlong.
    now destruct (validateInputLength_keeps
                    (set_textInput_value
                       (textarea_value (firstn (Z.to_nat (maxLength g)) text))
                       (showError (pasteTooLongMessage (maxLength g)) g)))
      as (-> & _ & _).
  - rewrite pasteText_fits by exact Hfits.
    now destruct (validateInputLength_keeps
                    (set_textInput_value (textarea_value text) g))
      as (-> & _ & _).
Qed.

(** X7: a successful paste writes the clipboard text into the text area,
    cut to its first [maxLength] code units when it is longer; the text
    area then reads that text with its newlines normalised (the text
    itself when it holds no carriage return), which is never longer than
    the maximum.  The message about the cut does not stay: the length
    check that follows replaces it by the warning or by nothing, while
    its timeout remains pending. *)
Theorem pasteText_within_maximum (g : State) (text : jsstring)
  (Hmax : 0 <= maxLength g) :
  let pasted := pasteText (Return text) g in
  let written :=
    if JS.length text >? maxLength g
    then firstn (Z.to_nat (maxLength g)) text
    else text in
  textInput_value pasted = textarea_value written
  /\ (Forall (fun u => u <> 0x0D%N) text -> textInput_value pasted = written)
  /\ JS.length (textInput_value pasted) <= maxLength g
  /\ errorContainer_textContent pasted <> pasteTooLongMessage (maxLength g)
  /\ (maxLength g < JS.length text ->
      In (now g + errorDelay)%N (timeouts pasted)).
Proof.
  cbv zeta. fold (kept g text).
  assert (Hkept : JS.length (kept g text) <= maxLength g).
  { unfold kept.
    destruct (Z.gtb_spec (JS.length text) (maxLength g)) as [Hlong|Hfits];
      [rewrite firstn_length_Z; lia|exact Hfits]. }
  split; [apply pasteText_value|]. split; [|split; [|split]].
  - intros Hclean. rewrite pasteText_value. unfold textarea_value.
    apply normalizeNewlines_clean. unfold kept.
    destruct (JS.length text >? maxLength g);
      [now apply Forall_firstn_keeps|exact Hclean].
  - rewrite pasteText_value. unfold textarea_value.
    pose proof (normalizeNewlines_length (kept g text)). lia.
  - assert (Hv : exists g', pasteText (Return text) g = validateInputLength g').
    { unfold pasteText. destruct (_ >? _); eauto. }
    destruct Hv as [g' ->].
    destruct (validateInputLength_message g') as [[r ->]| ->]; discriminate.
  - intros Hlong. rewrite pasteText_truncates by exact Hlong.
    destruct (validateInputLength_keeps
                (set_textInput_value
                   (textarea_value (firstn (Z.to_nat (maxLength g)) text))
                   (showError (pasteTooLongMessage (maxLength g)) g)))
      as (_ & -> & _).
    cbn. apply in_or_app; right; now left.
Qed.

Lemma pasteText_within_maximum_witness :
  let g := set_textInput_value (lit "old") Sample.freshGenerator in
  JS.length (textInput_value (pasteText (Return (repeat 0x61%N 1200)) g)) <= 1000
  /\ textInput_value (pasteText (Return (lit "short")) g) = lit "short"
  /\ textInput_value (pasteText (Return [0x61; 0x0D; 0x0A; 0x62]%N) g)
     = [0x61; 0x0A; 0x62]%N.
Proof.
  cbv zeta.
  assert (Hmax : 0 <= maxLength (set_textInput_value (lit "old") Sample.freshGenerator))
    by (vm_compute; discriminate).
  split; [|split].
  - exact (proj1 (proj2 (proj2
             (@pasteText_within_maximum _ (repeat 0x61%N 1200) Hmax)))).
  - rewrite (proj1 (proj2 (@pasteText_within_maximum _ (lit "short") Hmax)))
      by (repeat constructor; discriminate).
    reflexivity.
  - refine (eq_trans
              (proj1 (@pasteText_within_maximum _ [0x61; 0x0D; 0x0A; 0x62]%N Hmax))
              _).
    reflexivity.
Defined.

(** X8: with a maximum between 1 and 2000, pasting a longer text never
    leaves the message about the cut on display: the length check shows
    the warning with the characters left when the text area reads more
    than four fifths of the maximum and nothing otherwise, and five
    seconds later the timeout of the replaced message empties the
    container.  When the kept part holds no carriage return, the text
    area reads exactly [maxLength] code units and the warning says
    [0 characters remaining]. *)
Theorem pasteText_cut_message_lost (g : State) (text : jsstring) (d : N)
  (Hmax : 0 < maxLength g <= 2000)
  (Hlong : maxLength g < JS.length text)
  (Hd : (errorDelay <= d)%N) :
  let pasted := pasteText (Return text) g in
  let len := JS.length (textInput_value pasted) in
  len <= maxLength g
  /\ errorContainer_textContent pasted
     = (if 4 * maxLength g <? 5 * len
        then warningMessage (maxLength g - len)
        else [])
  /\ errorContainer_textContent (advance d pasted) = []
  /\ (Forall (fun u => u <> 0x0D%N) (firstn (Z.to_nat (maxLength g)) text) ->
      len = maxLength g
      /\ errorContainer_textContent pasted
         = lit "Warning: 0 characters remaining. Very long text may not fit in QR code.").
Proof.
  cbv zeta. rewrite pasteText_truncates by exact Hlong.
  set (cut := set_textInput_value
                (textarea_value (firstn (Z.to_nat (maxLength g)) text))
                (showError (pasteTooLongMessage (maxLength g)) g)).
  assert (Hcut : JS.length (textInput_value cut) <= maxLength g).
  { subst cut; cbn [textInput_value set_textInput_value]. unfold textarea_value.
    pose proof (normalizeNewlines_length (firstn (Z.to_nat (maxLength g)) text)).
    rewrite firstn_length_Z in * by lia. lia. }
  destruct (validateInputLength_keeps cut) as (Ht & Hts & Hnow).
  assert (Hshown : errorContainer_textContent (validateInputLength cut)
                   = (if 4 * maxLength g <? 5 * JS.length (textInput_value cut)
                      then warningMessage
                             (maxLength g - JS.length (textInput_value cut))
                      else [])).
  { unfold validateInputLength.
    change (maxLength cut) with (maxLength g).
    rewrite overEightyPercent_exact
      by (pose proof (length_nonneg (textInput_value cut)); lia).
    destruct (4 * maxLength g <? 5 * JS.length (textInput_value cut));
      reflexivity. }
  rewrite Ht.
  split; [exact Hcut|]. split; [exact Hshown|]. split.
  - apply GeneratorProofs.advance_due with (due := (now g + errorDelay)%N).
    + rewrite Hts. subst cut. cbn. apply in_or_app; right; now left.
    + rewrite Hnow. subst cut. cbn [now set_textInput_value showError
        setTimeout_clearError set_timeouts set_errorContainer_textContent]. lia.
  - intros Hclean.
    assert (Hfull : JS.length (textInput_value cut) = maxLength g).
    { subst cut; cbn [textInput_value set_textInput_value]. unfold textarea_value.
      rewrite normalizeNewlines_clean by exact Hclean.
      apply firstn_length_Z. lia. }
    split; [exact Hfull|]. rewrite Hshown, Hfull.
    destruct (Z.ltb_spec (4 * maxLength g) (5 * maxLength g)); [|lia].
    rewrite Z.sub_diag. reflexivity.
Qed.

Lemma pasteText_cut_message_lost_witness :
  errorContainer_textContent
    (pasteText (Return (repeat 0x61%N 1200)) Sample.freshGenerator)
  = lit "Warning: 0 characters remaining. Very long text may not fit in QR code."
  /\ errorContainer_textContent
       (pasteText (Return (List.concat (repeat [0x0D; 0x0A]%N 600)))
          Sample.freshGenerator)
     = [].
Proof.
  assert (Hmax : 0 < maxLength Sample.freshGenerator <= 2000)
    by (vm_compute; split; [reflexivity|discriminate]).
  assert (Hd : (errorDelay <= 5000)%N) by (vm_compute; discriminate).
  split.
  - assert (Hlong : maxLength Sample.freshGenerator < JS.length (repeat 0x61%N 1200))
      by (vm_compute; reflexivity).
    apply (proj2 (proj2 (proj2 (@pasteText_cut_message_lost Sample.freshGenerator
                                  (repeat 0x61%N 1200) 5000%N Hmax Hlong Hd)))).
    apply Forall_firstn_keeps, Forall_forall.
    intros u Hu. apply repeat_spec in Hu. subst. discriminate.
  - assert (Hlong : maxLength Sample.freshGenerator
                    < JS.length (List.concat (repeat [0x0D; 0x0A]%N 600)))
      by (vm_compute; reflexivity).
    refine (eq_trans
              (proj1 (proj2 (@pasteText_cut_message_lost Sample.freshGenerator
                               (List.concat (repeat [0x0D; 0x0A]%N 600)) 5000%N
                               Hmax Hlong Hd)))
              _).
    vm_compute. reflexivity.
Defined.

(** X9: the cut is made between code units: when it falls inside a
    surrogate pair, the text area ends in the lone high surrogate, after
    the text before it as a text area reads it (as it is when it holds no
    carriage return), and its UTF-8 form ends in the three bytes of
    U+FFFD. *)
Theorem pasteText_splits_surrogate_pair (g : State)
  (before rest : jsstring) (high low : N)
  (Hcut : JS.length before + 1 = maxLength g)
  (Hhigh : isHighSurrogate high = true)
  (Hlow : isLowSurrogate low = true) :
  let pasted := pasteText (Return (before ++ high :: low :: rest)) g in
  textInput_value pasted = textarea_value before ++ [high]
  /\ TextEncoder_encode (textInput_value pasted)
     = TextEncoder_encode (textarea_value before) ++ [0xEF; 0xBF; 0xBD]%N
  /\ (Forall (fun u => u <> 0x0D%N) before ->
      textInput_value pasted = before ++ [high]
      /\ TextEncoder_encode (textInput_value pasted)
         = TextEncoder_encode before ++ [0xEF; 0xBF; 0xBD]%N).
Proof.
  cbv zeta.
  assert (Hlong : maxLength g < JS.length (before ++ high :: low :: rest))
    by (unfold JS.length in *; rewrite length_app; cbn [List.length]; lia).
  assert (Hunit : (0xD800 <= high)%N).
  { unfold isHighSurrogate in Hhigh. apply andb_true_iff in Hhigh as [Hh _].
    now apply N.leb_le in Hh. }
  assert (Hvalue : textInput_value
                     (pasteText (Return (before ++ high :: low :: rest)) g)
                   = textarea_value before ++ [high]).
  { rewrite pasteText_value. unfold kept.
    destruct (Z.gtb_spec (JS.length (before ++ high :: low :: rest)) (maxLength g));
      [|lia].
    replace (Z.to_nat (maxLength g)) with (List.length before + 1)%nat
      by (unfold JS.length in Hcut; lia).
    rewrite firstn_app_2. cbn [firstn].
    unfold textarea_value. apply normalizeNewlines_snoc; lia. }
  rewrite Hvalue.
  split; [reflexivity|].
  split; [now apply TextEncoder_encode_lone_high|].
  intros Hclean. unfold textarea_value.
  rewrite normalizeNewlines_clean by exact Hclean.
  split; [reflexivity|now apply TextEncoder_encode_lone_high].
Qed.

Lemma pasteText_splits_surrogate_pair_witness :
  TextEncoder_encode
    (textInput_value
       (pasteText (Return (lit "ab" ++ [0xD83D; 0xDE00]%N)) tinyGenerator))
  = [0x61; 0x62; 0xEF; 0xBF; 0xBD]%N.
Proof.
  refine (eq_trans
            (proj1 (proj2 (@pasteText_splits_surrogate_pair tinyGenerator
                             (lit "ab") [] 0xD83D%N 0xDE00%N
                             eq_refl eq_refl eq_refl)))
            _).
  reflexivity.
Defined.

End GeneratorInputProofs.

(* ------------------------------------------------------------------ *)
(** ** The scanner: files, pastes, drops and the copy button *)

Module ScannerEventsProofs.

Import Scanner ScannerEvents TextFacts.

Definition yieldsImage (item : Item) : bool :=
  includes (lit "image") (item_type item)
  && match getAsFile item with Some _ => true | None => false end.

Section Files.

Variable toDataURL : Image -> Crop -> jsstring.
Variable jsQR : list N -> float -> float -> Completion (option Code).
Variable readAsDataURL : File -> option jsstring.
Variable loadImage : jsstring -> option Image.

Local Abbreviation process := (processFile toDataURL jsQR readAsDataURL loadImage).
Local Abbreviation paste := (handlePaste toDataURL jsQR readAsDataURL loadImage).
Local Abbreviation drop := (handleDrop toDataURL jsQR readAsDataURL loadImage).

Lemma processFile_accepted_alerts (file : File) (p : Page) :
  matchesImage (type file) = true -> alerts (process file p) = alerts p.
Proof.
  intros Hm. unfold processFile. rewrite Hm. cbn [negb].
  destruct (readAsDataURL file) as [url|]; [|reflexivity].
  destruct (loadImage url); reflexivity.
Qed.

(** X10: [processFile] lets a file through exactly when [image] occurs
    somewhere in its type, at the start or not; any other file raises the
    alert and changes nothing else, and a file let through never raises
    it. *)
Theorem processFile_type_gate (file : File) (p : Page) :
  (matchesImage (type file) = true
   <-> exists pre post, type file = pre ++ lit "image" ++ post)
  /\ (matchesImage (type file) = false ->
      process file p
      = set_alerts (alerts p ++ [lit "Please select an image file"]) p)
  /\ (matchesImage (type file) = true -> alerts (process file p) = alerts p).
Proof.
  split; [apply includes_spec|].
  split; [|apply processFile_accepted_alerts].
  intros Hm. unfold processFile. now rewrite Hm.
Qed.

(** X11: what happens to a file that is let through.  When it cannot be read
    or is no picture, the page stays as it was, without any message.
    When no symbol is found, the preview source is the whole picture,
    hidden, under [No QR code found]; when one is found, the result field
    reads the decoded text with its newlines normalised (the decoded text
    itself when it holds no carriage return), the preview source is the
    crop, shown, and the buttons follow the text of the field. *)
Theorem processFile_outcomes (file : File) (p : Page)
  (Htype : matchesImage (type file) = true) :
  (readAsDataURL file = None -> process file p = p)
  /\ (forall url, readAsDataURL file = Some url -> loadImage url = None ->
      process file p = p)
  /\ (forall url img,
        readAsDataURL file = Some url -> loadImage url = Some img ->
        jsQR (pixels img) (width img) (height img) = Return None ->
        resultText_value (scanner (process file p)) = lit "No QR code found"
        /\ preview_src (scanner (process file p)) = url
        /\ preview_hidden (scanner (process file p)) = true)
  /\ (forall url img code,
        readAsDataURL file = Some url -> loadImage url = Some img ->
        jsQR (pixels img) (width img) (height img) = Return (Some code) ->
        resultText_value (scanner (process file p))
        = textarea_value (data code)
        /\ (Forall (fun u => u <> 0x0D%N) (data code) ->
            resultText_value (scanner (process file p)) = data code)
        /\ preview_src (scanner (process file p))
           = toDataURL img (cropOf (location code))
        /\ preview_hidden (scanner (process file p)) = false
        /\ buttons_follow_text (scanner (process file p))).
Proof.
  unfold processFile. rewrite Htype. cbn [negb].
  split; [intros ->; reflexivity|].
  split; [intros url -> ->; reflexivity|].
  split.
  - intros url img -> -> Hnone. cbn [scanner set_scanner].
    unfold scanQRCode. rewrite Hnone.
    repeat split. apply classList_contains_add.
  - intros url img code -> -> Hfound. cbn [scanner set_scanner].
    split; [|split; [|split; [|split]]].
    + unfold scanQRCode. rewrite Hfound. reflexivity.
    + intros Hclean. unfold scanQRCode. rewrite Hfound.
      cbn [resultText_value toggleButtons set_clearBtn_disabled
           set_copyBtn_disabled displayQRCodeArea set_previewArea_classList
           set_preview_src set_resultText_value].
      unfold textarea_value. now apply normalizeNewlines_clean.
    + unfold scanQRCode. rewrite Hfound. reflexivity.
    + unfold scanQRCode. rewrite Hfound. apply classList_contains_remove.
    + apply ScannerProofs.scanQRCode_found_follows with (code := code).
      exact Hfound.
Qed.

(** X12: [handlePaste] processes one file at most: that of the first item
    whose type holds [image] and which yields a file.  Items before it
    are passed over, items after it are not looked at, and with no such
    item, or no clipboard data, the page stays as it was.  When each file
    has the type of its item, no alert is raised. *)
Theorem handlePaste_first_image (items : list Item) (p : Page) :
  paste None p = p
  /\ paste (Some items) p
     = match find yieldsImage items with
       | Some item =>
           match getAsFile item with
           | Some blob => process blob p
           | None => p
           end
       | None => p
       end
  /\ ((forall item blob, In item items -> getAsFile item = Some blob ->
         type blob = item_type item) ->
      alerts (paste (Some items) p) = alerts p).
Proof.
  split; [reflexivity|]. split.
  - cbn [handlePaste]. induction items as [|item rest IH]; [reflexivity|].
    cbn [handlePaste_from find]. unfold yieldsImage at 1.
    destruct (includes (lit "image") (item_type item)); cbn [andb];
      [|exact IH].
    destruct (getAsFile item) as [blob|] eqn:Hfile; [|exact IH].
    now rewrite Hfile.
  - cbn [handlePaste]. induction items as [|item rest IH]; intros Hsame;
      [reflexivity|].
    cbn [handlePaste_from].
    destruct (includes (lit "image") (item_type item)) eqn:Himg.
    + destruct (getAsFile item) as [blob|] eqn:Hfile.
      * apply processFile_accepted_alerts. unfold matchesImage.
        rewrite (Hsame item blob (or_introl eq_refl) Hfile). exact Himg.
      * apply IH. intros it b Hin. apply Hsame. now right.
    + apply IH. intros it b Hin. apply Hsame. now right.
Qed.

Lemma processFile_keeps_dropArea (file : File) (p : Page) :
  dropArea_classList (process file p) = dropArea_classList p.
Proof.
  unfold processFile. destruct (negb _); [reflexivity|].
  destruct (readAsDataURL file) as [url|]; [|reflexivity].
  destruct (loadImage url); reflexivity.
Qed.

(** X13: the highlight of the drop area: repeated [dragover] events add the
    class once, and a drop takes it away whatever is dropped. *)
Theorem handleDrop_ends_highlight (files : list File) (p : Page) :
  handleDragOver (handleDragOver p) = handleDragOver p
  /\ classList_contains "dragover"
       (dropArea_classList (handleDragOver p)) = true
  /\ classList_contains "dragover"
       (dropArea_classList (drop files (handleDragOver p))) = false
  /\ classList_contains "dragover"
       (dropArea_classList (handleDragLeave (handleDragOver p))) = false.
Proof.
  split; [|split; [|split]].
  - unfold handleDragOver. cbn [dropArea_classList set_dropArea_classList].
    rewrite classList_add_idempotent. reflexivity.
  - apply classList_contains_add.
  - unfold handleDrop. destruct files as [|file rest].
    + apply classList_contains_remove.
    + rewrite processFile_keeps_dropArea. apply classList_contains_remove.
  - apply classList_contains_remove.
Qed.

End Files.

Lemma processFile_type_gate_witness :
  alerts (processFile Sample.dataURL Sample.jsQR_null SamplePage.readAsDataURL
            SamplePage.loadImage SamplePage.text SamplePage.freshPage)
  = [lit "Please select an image file"]
  /\ alerts (processFile Sample.dataURL Sample.jsQR_null SamplePage.readAsDataURL
               SamplePage.loadImage
               {| type := lit "application/vnd.oasis.opendocument.image" |}
               SamplePage.freshPage)
     = [].
Proof.
  split.
  - rewrite (proj1 (proj2 (processFile_type_gate Sample.dataURL Sample.jsQR_null
                             SamplePage.readAsDataURL SamplePage.loadImage
                             SamplePage.text SamplePage.freshPage)))
      by reflexivity.
    reflexivity.
  - rewrite (proj2 (proj2 (processFile_type_gate Sample.dataURL Sample.jsQR_null
                             SamplePage.readAsDataURL SamplePage.loadImage
                             {| type := lit "application/vnd.oasis.opendocument.image" |}
                             SamplePage.freshPage)))
      by reflexivity.
    reflexivity.
Defined.

Lemma processFile_outcomes_witness :
  let p := processFile Sample.dataURL Sample.jsQR_null SamplePage.readAsDataURL
             SamplePage.loadImage SamplePage.png SamplePage.freshPage in
  (resultText_value (scanner p) = lit "No QR code found"
   /\ preview_src (scanner p) = lit "data:image/png;base64,"
   /\ preview_hidden (scanner p) = true)
  /\ resultText_value
       (scanner
          (processFile Sample.dataURL
             (Sample.jsQR_finds
                {| data := [0x61; 0x0D; 0x0A; 0x62]%N;
                   location := Sample.box 40 60 140 160 |})
             SamplePage.readAsDataURL SamplePage.loadImage SamplePage.png
             SamplePage.freshPage))
     = [0x61; 0x0A; 0x62]%N.
Proof.
  cbv zeta.
  assert (Htype : matchesImage (type SamplePage.png) = true) by reflexivity.
  split.
  - destruct (@processFile_outcomes Sample.dataURL Sample.jsQR_null
                SamplePage.readAsDataURL SamplePage.loadImage
                SamplePage.png SamplePage.freshPage Htype)
      as (_ & _ & Hnone & _).
    exact (Hnone (lit "data:image/png;base64,") Sample.picture
             eq_refl eq_refl eq_refl).
  - destruct (@processFile_outcomes Sample.dataURL
                (Sample.jsQR_finds
                   {| data := [0x61; 0x0D; 0x0A; 0x62]%N;
                      location := Sample.box 40 60 140 160 |})
                SamplePage.readAsDataURL SamplePage.loadImage
                SamplePage.png SamplePage.freshPage Htype)
      as (_ & _ & _ & Hfound).
    destruct (Hfound (lit "data:image/png;base64,") Sample.picture
                {| data := [0x61; 0x0D; 0x0A; 0x62]%N;
                   location := Sample.box 40 60 140 160 |}
                eq_refl eq_refl eq_refl) as (Hvalue & _).
    refine (eq_trans Hvalue _). reflexivity.
Defined.

Lemma handlePaste_first_image_witness :
  let items :=
    [ {| item_type := lit "text/plain"; getAsFile := None |};
      {| item_type := lit "image/png"; getAsFile := None |};
      {| item_type := lit "image/png"; getAsFile := Some SamplePage.png |};
      {| item_type := lit "image/gif";
         getAsFile := Some {| type := lit "image/gif" |} |} ] in
  alerts (handlePaste Sample.dataURL Sample.jsQR_null SamplePage.readAsDataURL
            SamplePage.loadImage (Some items) SamplePage.freshPage)
  = [].
Proof.
  cbv zeta.
  refine (proj2 (proj2 (@handlePaste_first_image Sample.dataURL Sample.jsQR_null
                          SamplePage.readAsDataURL SamplePage.loadImage
                          _ SamplePage.freshPage)) _).
  intros item blob Hin Hfile.
  repeat (destruct Hin as [<-|Hin];
          [cbn in Hfile; first [discriminate|injection Hfile as <-; reflexivity]|]).
  destruct Hin.
Defined.

Local Open Scope N_scope.

(** X14: one click on the copy button: the result text is handed to the
    clipboard, the label reads [Copied!] for 2000 milliseconds and is
    then what it was. *)
Theorem copyToClipboard_restores (p : Page) (d : N)
  (Hidle : timeouts p = []) :
  copyDelay = 2000
  /\ copied (copyToClipboard p) = copied p ++ [resultText_value (scanner p)]
  /\ (d < copyDelay ->
      copyBtn_textContent (advance d (copyToClipboard p)) = lit "Copied!")
  /\ (copyDelay <= d ->
      copyBtn_textContent (advance d (copyToClipboard p)) = copyBtn_textContent p
      /\ timeouts (advance d (copyToClipboard p)) = []).
Proof.
  split; [reflexivity|]. split; [reflexivity|].
  unfold advance, copyToClipboard; cbv zeta.
  cbn [timeouts set_timeouts set_copyBtn_textContent set_copied set_now now
       copyBtn_textContent].
  rewrite Hidle. cbn [app filter fst snd].
  split; intros Hd.
  - destruct (N.leb_spec (now p + copyDelay) (now p + d)); [lia|reflexivity].
  - destruct (N.leb_spec (now p + copyDelay) (now p + d)); [|lia].
    split; reflexivity.
Qed.

(** X15: two clicks less than 2000 milliseconds apart: the second click reads
    [Copied!] as the label to put back, so once both timeouts have run
    the label is [Copied!] and nothing is left to change it. *)
Theorem copyToClipboard_twice_sticks (p : Page) (d1 d2 : N)
  (Hidle : timeouts p = [])
  (Hsoon : d1 < copyDelay)
  (Hlate : copyDelay <= d2) :
  let q := advance d2 (copyToClipboard (advance d1 (copyToClipboard p))) in
  copyBtn_textContent q = lit "Copied!"
  /\ timeouts q = []
  /\ forall d, copyBtn_textContent (advance d q) = lit "Copied!".
Proof.
  cbv zeta.
  assert (Hq : copyBtn_textContent
                 (advance d2 (copyToClipboard (advance d1 (copyToClipboard p))))
               = lit "Copied!"
               /\ timeouts
                    (advance d2 (copyToClipboard (advance d1 (copyToClipboard p))))
                  = []).
  { unfold advance, copyToClipboard; cbv zeta.
    cbn [timeouts set_timeouts set_copyBtn_textContent set_copied set_now now
         copyBtn_textContent].
    rewrite Hidle. cbn [app filter fst snd].
    destruct (N.leb_spec (now p + copyDelay) (now p + d1)); [lia|].
    cbn [negb app filter fst snd fold_left].
    destruct (N.leb_spec (now p + copyDelay) (now p + d1 + d2)); [|lia].
    cbn [negb app filter fst snd fold_left].
    destruct (N.leb_spec (now p + d1 + copyDelay) (now p + d1 + d2)); [|lia].
    split; reflexivity. }
  destruct Hq as [Hlabel Hnone].
  split; [exact Hlabel|]. split; [exact Hnone|].
  intros d. unfold advance at 1; cbv zeta.
  cbn [copyBtn_textContent set_timeouts set_copyBtn_textContent set_now timeouts].
  rewrite Hnone. cbn [filter fold_left]. exact Hlabel.
Qed.

Local Close Scope N_scope.

Lemma copyToClipboard_restores_witness :
  copyBtn_textContent (advance 1999 (copyToClipboard SamplePage.freshPage))
  = lit "Copied!"
  /\ copyBtn_textContent (advance 2000 (copyToClipboard SamplePage.freshPage))
     = lit "Copy".
Proof.
  split.
  - apply (@copyToClipboard_restores SamplePage.freshPage 1999%N eq_refl).
    reflexivity.
  - apply (@copyToClipboard_restores SamplePage.freshPage 2000%N eq_refl).
    vm_compute; discriminate.
Defined.

Lemma copyToClipboard_twice_sticks_witness :
  copyBtn_textContent
    (advance 5000
       (copyToClipboard (advance 1000 (copyToClipboard SamplePage.freshPage))))
  = lit "Copied!"
  /\ copyBtn_textContent SamplePage.freshPage = lit "Copy".
Proof.
  assert (Hsoon : (1000 < copyDelay)%N) by reflexivity.
  assert (Hlate : (copyDelay <= 5000)%N) by (vm_compute; discriminate).
  split; [|reflexivity].
  exact (proj1 (@copyToClipboard_twice_sticks SamplePage.freshPage
                  1000%N 5000%N eq_refl Hsoon Hlate)).
Defined.

End ScannerEventsProofs.

(** A scan that finds nothing, after a clear: the buttons stay as the
    clear left them. *)
Lemma scanQRCode_failure_buttons_witness :
  Scanner.copyBtn_disabled
    (Scanner.scanQRCode Sample.dataURL Sample.jsQR_null Sample.picture
       (Scanner.clearResults Sample.scanned))
  = Scanner.copyBtn_disabled (Scanner.clearResults Sample.scanned).
Proof.
  apply (@ScannerProofs.scanQRCode_failure_buttons Sample.dataURL
           Sample.jsQR_null Sample.picture (Scanner.clearResults Sample.scanned)).
  intros code. discriminate.
Defined.
